(** * Presence registry and message dispatch of the messenger server

    Shallow embedding of the latest snapshot of [src/server.js] (the
    Postgres/Supabase version, lines 169-368): the Socket.IO handlers
    [login], [send_message] and [disconnect] over the in-memory object
    [onlineUsers], and the HTTP routes [GET /messages] and
    [POST /friends/request] over the Postgres tables declared by [initDB]. *)

From Stdlib Require Import ZArith List String Ascii Bool DecimalString Lia Sorted Permutation.
Import ListNotations.
Open Scope string_scope.
Open Scope list_scope.
Open Scope Z_scope.

(* ------------------------------------------------------------------ *)
(** ** JavaScript values *)

(** JS numbers as they occur here: integers, and NaN (the result of
    [Number] on a non-numeric string or on [undefined]). Fractional
    numbers and infinities are outside the model. *)
Inductive num : Type :=
| NInt (z : Z)
| NNaN.

(** The JS values a client can put into an event payload or a request
    body (JSON plus [undefined] for a missing property). *)
Inductive jsval : Type :=
| JUndef
| JNull
| JBool (b : bool)
| JNum (n : num)
| JStr (s : string).

Definition num_eqb (a b : num) : bool :=
  match a, b with
  | NInt x, NInt y => Z.eqb x y
  | NNaN, NNaN => true
  | _, _ => false
  end.

Lemma num_eqb_eq a b : num_eqb a b = true <-> a = b.
Proof.
  destruct a, b; simpl; split; intro H; try discriminate; try reflexivity.
  - apply Z.eqb_eq in H; subst; reflexivity.
  - inversion H; subst; apply Z.eqb_refl.
Qed.

Lemma num_eqb_refl a : num_eqb a a = true.
Proof. apply num_eqb_eq; reflexivity. Qed.

Lemma num_eqb_sym a b : num_eqb a b = num_eqb b a.
Proof. destruct a, b; simpl; try reflexivity; apply Z.eqb_sym. Qed.

(** JS truthiness ([if (x)], [!x]). *)
Definition truthy (v : jsval) : bool :=
  match v with
  | JUndef | JNull => false
  | JBool b => b
  | JNum (NInt z) => negb (Z.eqb z 0)
  | JNum NNaN => false
  | JStr s => negb (String.eqb s "")
  end.

(** [Number(v)]. Strings: the empty string is 0, a decimal integer
    literal is its value, anything else is NaN (fractional, exponent,
    hexadecimal and whitespace-padded literals are outside the model). *)
Definition to_number (v : jsval) : num :=
  match v with
  | JUndef => NNaN
  | JNull => NInt 0
  | JBool b => NInt (if b then 1 else 0)
  | JNum n => n
  | JStr s =>
      if String.eqb s "" then NInt 0
      else match NilZero.int_of_string s with
           | Some i => NInt (Z.of_int i)
           | None => NNaN
           end
  end.

(* ------------------------------------------------------------------ *)
(** ** The [onlineUsers] object *)

(** Socket.IO connection ids ([socket.id]). *)
Definition sid := string.

(** [let onlineUsers = {}]: an ordinary JS object from the property key
    [String(uid)] to a socket id. Keys are the numbers [Number(userId)]
    ([String] is injective on the numbers of the model), kept in
    property-creation order. *)
Definition registry := list (num * sid).

(** [onlineUsers[k]] *)
Fixpoint get_prop (k : num) (m : registry) : option sid :=
  match m with
  | [] => None
  | (k', v) :: m' => if num_eqb k k' then Some v else get_prop k m'
  end.

(** [onlineUsers[k] = v]: an existing property is updated in place, a new
    one is appended (creation order). *)
Fixpoint set_prop (k : num) (v : sid) (m : registry) : registry :=
  match m with
  | [] => [(k, v)]
  | (k', v') :: m' =>
      if num_eqb k k' then (k', v) :: m' else (k', v') :: set_prop k v m'
  end.

(** [delete onlineUsers[k]] *)
Fixpoint delete_prop (k : num) (m : registry) : registry :=
  match m with
  | [] => []
  | (k', v') :: m' =>
      if num_eqb k k' then delete_prop k m' else (k', v') :: delete_prop k m'
  end.

(** Array-index keys: the integers [0 <= z < 2^32 - 1]. *)
Definition is_array_index (k : num) : bool :=
  match k with
  | NInt z => (0 <=? z) && (z <? 2 ^ 32 - 1)
  | NNaN => false
  end.

Definition index_of (k : num) : Z :=
  match k with NInt z => z | NNaN => 0 end.

Fixpoint insert_index (k : num) (ks : list num) : list num :=
  match ks with
  | [] => [k]
  | k' :: ks' =>
      if index_of k <=? index_of k' then k :: ks else k' :: insert_index k ks'
  end.

Definition sort_indices (ks : list num) : list num :=
  fold_right insert_index [] ks.

(** [for (let id in onlineUsers)] visits the own enumerable keys in the
    order of [OrdinaryOwnPropertyKeys]: array indices ascending, then the
    other string keys in creation order. *)
Definition own_keys (m : registry) : list num :=
  sort_indices (filter is_array_index (map fst m))
  ++ filter (fun k => negb (is_array_index k)) (map fst m).

(* ------------------------------------------------------------------ *)
(** ** Socket handlers on the registry *)

(** [socket.on('login', (userId) => { if (!userId) return;
      const uid = Number(userId); onlineUsers[uid] = socket.id; ... })] *)
Definition on_login (socket_id : sid) (userId : jsval) (onlineUsers : registry)
  : registry :=
  if negb (truthy userId) then onlineUsers
  else let uid := to_number userId in set_prop uid socket_id onlineUsers.

(** The loop body of the [disconnect] handler:
    [for (let id in onlineUsers) { if (onlineUsers[id] === socket.id)
       { delete onlineUsers[id]; break; } }] *)
Fixpoint disconnect_scan (socket_id : sid) (ids : list num) (onlineUsers : registry)
  : registry :=
  match ids with
  | [] => onlineUsers
  | id :: ids' =>
      match get_prop id onlineUsers with
      | Some v =>
          if String.eqb v socket_id then delete_prop id onlineUsers
          else disconnect_scan socket_id ids' onlineUsers
      | None => disconnect_scan socket_id ids' onlineUsers
      end
  end.

(** [socket.on('disconnect', ...)] *)
Definition on_disconnect (socket_id : sid) (onlineUsers : registry) : registry :=
  disconnect_scan socket_id (own_keys onlineUsers) onlineUsers.

(* ------------------------------------------------------------------ *)
(** ** The Postgres store ([pool.query]) *)

(** [messages] row: [id SERIAL, sender_id INTEGER REFERENCES users(id),
    receiver_id INTEGER REFERENCES users(id), text TEXT,
    created_at TIMESTAMP DEFAULT CURRENT_TIMESTAMP]; [None] is SQL NULL. *)
Record msg_row : Type := MsgRow {
  m_id : Z;
  sender_id : Z;
  receiver_id : Z;
  m_text : option string;
  created_at : Z
}.

(** [friends] row: [id SERIAL, user_id, friend_id, status TEXT DEFAULT
    'pending', UNIQUE(user_id, friend_id)]. *)
Record friend_row : Type := FriendRow {
  f_id : Z;
  user_id : Z;
  friend_id : Z;
  f_status : string
}.

(** The database as the server sees it: whether the pool reaches it, the
    ids of the [users] table, the two tables, the two SERIAL sequences and
    the current value of [CURRENT_TIMESTAMP]. *)
Record db : Type := Db {
  db_up : bool;
  users : list Z;
  messages : list msg_row;
  friends : list friend_row;
  messages_id_seq : Z;
  friends_id_seq : Z;
  now : Z
}.

(** Why a [pool.query] promise rejects. *)
Inductive db_error : Type :=
| Unavailable          (* connection or query failure of the pool *)
| InvalidIntegerSyntax (* parameter text such as 'NaN' for an INTEGER column *)
| IntegerOutOfRange    (* INTEGER is 32-bit *)
| ForeignKeyViolation
| UniqueViolation
| InvalidByteSequence. (* a TEXT parameter holding a NUL byte *)

(** node-postgres [prepareValue] for a query parameter: [undefined] and
    [null] become NULL, everything else its string form. *)
Definition num_to_string (n : num) : string :=
  match n with
  | NInt z => NilZero.string_of_int (Z.to_int z)
  | NNaN => "NaN"
  end.

Definition pg_param (v : jsval) : option string :=
  match v with
  | JUndef | JNull => None
  | JBool b => Some (if b then "true" else "false")
  | JNum n => Some (num_to_string n)
  | JStr s => Some s
  end.

(** Postgres reading the parameter [String(n)] of a JS number into an
    INTEGER column. *)
Definition int4_param (n : num) : db_error + Z :=
  match n with
  | NNaN => inl InvalidIntegerSyntax
  | NInt z =>
      if (- 2 ^ 31 <=? z) && (z <? 2 ^ 31) then inr z else inl IntegerOutOfRange
  end.

(** A TEXT parameter reaches the server as UTF-8 and is checked against
    the database encoding while the statement's parameters are bound, in
    the order [$1], [$2], ...: a NUL byte is rejected there
    ([invalid byte sequence for encoding "UTF8": 0x00]); NULL passes. *)
Fixpoint has_nul (s : string) : bool :=
  match s with
  | EmptyString => false
  | String c s' => Ascii.eqb c "000"%char || has_nul s'
  end.

Definition text_param_ok (p : option string) : bool :=
  match p with
  | Some s => negb (has_nul s)
  | None => true
  end.

Definition user_exists (d : db) (u : Z) : bool :=
  existsb (Z.eqb u) (users d).

(** [INSERT INTO messages (sender_id, receiver_id, text) VALUES ($1, $2, $3)].
    Parameters are bound before execution: [$1] and [$2] as INTEGER,
    then [$3] as TEXT; the foreign keys are checked when the row is
    written. The id a rejected row draws
    from the sequence is not tracked: a rejected INSERT leaves the model's
    database as it was (ids are only compared, never counted). *)
Definition insert_message (d : db) (from to : num) (text : option string)
  : db_error + db :=
  if negb (db_up d) then inl Unavailable else
  match int4_param from, int4_param to with
  | inl e, _ | _, inl e => inl e
  | inr s, inr r =>
      if negb (text_param_ok text) then inl InvalidByteSequence else
      let id := messages_id_seq d in
      if user_exists d s && user_exists d r then
        inr (Db (db_up d) (users d)
               (messages d ++ [MsgRow id s r text (now d)])
               (friends d) (id + 1) (friends_id_seq d) (now d))
      else inl ForeignKeyViolation
  end.

(** [INSERT INTO friends (user_id, friend_id) VALUES ($1, $2)]. *)
Definition insert_friend (d : db) (from to : num) : db_error + db :=
  if negb (db_up d) then inl Unavailable else
  match int4_param from, int4_param to with
  | inl e, _ | _, inl e => inl e
  | inr a, inr b =>
      let id := friends_id_seq d in
      if existsb (fun r => (user_id r =? a) && (friend_id r =? b)) (friends d)
      then inl UniqueViolation
      else if user_exists d a && user_exists d b then
        inr (Db (db_up d) (users d) (messages d)
               (friends d ++ [FriendRow id a b "pending"])
               (messages_id_seq d) (id + 1) (now d))
      else inl ForeignKeyViolation
  end.

(** [ORDER BY created_at ASC], as a stable insertion sort. *)
Fixpoint insert_by_created (r : msg_row) (rs : list msg_row) : list msg_row :=
  match rs with
  | [] => [r]
  | r' :: rs' =>
      if created_at r <? created_at r' then r :: rs
      else r' :: insert_by_created r rs'
  end.

Definition order_by_created_at (rs : list msg_row) : list msg_row :=
  fold_left (fun acc r => insert_by_created r acc) rs [].

(** [WHERE (sender_id = $1 AND receiver_id = $2)
          OR (sender_id = $2 AND receiver_id = $1)] *)
Definition in_conversation (a b : Z) (r : msg_row) : bool :=
  ((sender_id r =? a) && (receiver_id r =? b))
  || ((sender_id r =? b) && (receiver_id r =? a)).

(** The SELECT of [GET /messages], for a given implementation [order_by]
    of the ORDER BY clause. *)
Definition select_conversation_with (order_by : list msg_row -> list msg_row)
  (d : db) (a b : num) : db_error + list msg_row :=
  if negb (db_up d) then inl Unavailable else
  match int4_param a, int4_param b with
  | inl e, _ | _, inl e => inl e
  | inr x, inr y => inr (order_by (filter (in_conversation x y) (messages d)))
  end.

Definition select_conversation := select_conversation_with order_by_created_at.

(* ------------------------------------------------------------------ *)
(** ** HTTP routes *)

(** [app.get('/messages', ...)]: [myId] and [userId] go through [Number];
    a rejected query is answered with [res.json([])]. *)
Definition get_messages (d : db) (myId userId : jsval) : list msg_row :=
  let myId' := to_number myId in
  let userId' := to_number userId in
  match select_conversation d myId' userId' with
  | inr rows => rows
  | inl _ => []
  end.

(** Responses of [POST /friends/request]. *)
Inductive friend_request_response : Type :=
| FriendRequestSent    (* res.json({ success: true }) *)
| FriendRequestExists. (* res.status(400).json({ error: "Запрос уже существует" }) *)

(** [app.post('/friends/request', ...)]: any rejection of the INSERT is
    answered with the 400 response. *)
Definition post_friends_request (d : db) (fromId toId : jsval)
  : db * friend_request_response :=
  let fromId' := to_number fromId in
  let toId' := to_number toId in
  match insert_friend d fromId' toId' with
  | inr d' => (d', FriendRequestSent)
  | inl _ => (d, FriendRequestExists)
  end.

(* ------------------------------------------------------------------ *)
(** ** The [send_message] handler *)

(** Server state shared by all connections. *)
Record state : Type := State {
  onlineUsers : registry;
  store : db
}.

(** The [send_message] payload [{ toUserId, fromUserId, text }]; a missing
    property reads as [undefined]. *)
Record payload : Type := Payload {
  toUserId : jsval;
  fromUserId : jsval;
  text : jsval
}.

(** Server-to-client event [receive_message] with body [{ from, text }]. *)
Record receive_message : Type := ReceiveMessage {
  rm_from : num;
  rm_text : jsval
}.

(** What a handler does to the outside world, in order. *)
Inductive action : Type :=
| AInsertMessage (from to : num) (text : option string) (outcome : option db_error)
    (* await pool.query('INSERT INTO messages ...'); [None] = resolved *)
| AEmit (target : sid) (ev : receive_message)
    (* io.to(target).emit('receive_message', ev) *)
| ALogError (e : db_error)
    (* console.error in the catch block *)
| AUncaughtTypeError.
    (* an exception thrown outside the try: the promise of the async
       listener rejects and nobody handles it *)

(** [socket.on('send_message', async (data) => { ... })] run by the
    connection [socket_id]: the insert is awaited first; the registry is
    read when it has resolved. *)
Definition on_send_message (socket_id : sid) (data : payload) (st : state)
  : state * list action :=
  let to := to_number (toUserId data) in
  let from := to_number (fromUserId data) in
  let p := pg_param (text data) in
  match insert_message (store st) from to p with
  | inl e =>
      (st, [AInsertMessage from to p (Some e); ALogError e])
  | inr d' =>
      let st' := State (onlineUsers st) d' in
      let ins := AInsertMessage from to p None in
      match get_prop to (onlineUsers st) with
      | Some recipientSocketId =>
          if negb (String.eqb recipientSocketId "") then
            (st', [ins; AEmit recipientSocketId (ReceiveMessage from (text data))])
          else (st', [ins])
      | None => (st', [ins])
      end
  end.

(** The listener as Socket.IO calls it, with the event's argument [data]:
    [None] is [null] or [undefined] (an explicit [null], or no argument),
    on which [const { toUserId, fromUserId, text } = data] throws a
    TypeError before the [try]. Any other argument is read through
    [payload] (a number, string or boolean has none of the three
    properties, which read as [undefined]). What the process does with
    the unhandled rejection is outside the model, which keeps the
    state. *)
Definition on_send_message_event (socket_id : sid) (data : option payload) (st : state)
  : state * list action :=
  match data with
  | None => (st, [AUncaughtTypeError])
  | Some p => on_send_message socket_id p st
  end.

(* ------------------------------------------------------------------ *)
(** ** The [users] table and the account routes *)

(** bcryptjs as the routes use it. [bcrypt.hash(s, 10)] rejects when [s]
    is not a string; the hash keeps a random salt and the key bytes, of
    which the key schedule reads the first 72 ([s] followed by NUL,
    cycled). [bcrypt.compare(s, h)] rejects when [s] is not a string and
    holds when [s] gives the key bytes [h] was made from. Hash collisions,
    and passwords with NUL bytes, are outside the model. *)
Record bhash : Type := BHash {
  bh_key : string;
  bh_salt : Z
}.

Definition bcrypt_key (s : string) : string := substring 0 72 s.

Definition bcrypt_hash (password : jsval) (salt : Z) : option bhash :=
  match password with
  | JStr s => Some (BHash (bcrypt_key s) salt)
  | _ => None
  end.

Definition bcrypt_compare (password : jsval) (h : bhash) : option bool :=
  match password with
  | JStr s => Some (String.eqb (bcrypt_key s) (bh_key h))
  | _ => None
  end.

(** [users] row: [id SERIAL, phone TEXT UNIQUE, email TEXT UNIQUE,
    password TEXT, name TEXT, avatar TEXT]. Rows only come from
    [/register], which always stores a hash, so [password] is not NULL. *)
Record user_row : Type := UserRow {
  u_id : Z;
  u_phone : option string;
  u_email : option string;
  u_password : bhash;
  u_name : option string;
  u_avatar : option string
}.

(** The whole database: the tables of [db] and the rows of [users]
    ([users] of [db] keeps their ids, for the foreign keys). *)
Record pgdb : Type := PgDb {
  base : db;
  user_rows : list user_row;
  users_id_seq : Z
}.

(** SQL [=] on TEXT values: NULL equals nothing. *)
Definition sql_text_eq (a b : option string) : bool :=
  match a, b with
  | Some x, Some y => String.eqb x y
  | _, _ => false
  end.

(** A UNIQUE TEXT column already holds the (non-NULL) value [v]. *)
Definition text_taken (col : user_row -> option string) (rows : list user_row)
  (v : option string) : bool :=
  existsb (fun u => sql_text_eq (col u) v) rows.

(** [INSERT INTO users (phone, email, password, name, avatar) VALUES
    ($1, $2, $3, $4, $5) RETURNING id]: the TEXT parameters are bound
    first (the bcrypt hash [$3] is plain ASCII), then the UNIQUE columns
    are checked. *)
Definition insert_user (s : pgdb) (phone email : option string) (h : bhash)
  (name avatar : option string) : db_error + (pgdb * Z) :=
  let d := base s in
  if negb (db_up d) then inl Unavailable
  else if negb (text_param_ok phone && text_param_ok email
                && text_param_ok name && text_param_ok avatar)
  then inl InvalidByteSequence
  else if text_taken u_phone (user_rows s) phone then inl UniqueViolation
  else if text_taken u_email (user_rows s) email then inl UniqueViolation
  else
    let id := users_id_seq s in
    inr (PgDb (Db (db_up d) (users d ++ [id]) (messages d) (friends d)
                  (messages_id_seq d) (friends_id_seq d) (now d))
              (user_rows s ++ [UserRow id phone email h name avatar])
              (id + 1),
         id).

(** Responses of [POST /register]. *)
Inductive register_response : Type :=
| Registered (id : Z) (name : jsval) (avatar : option string)
    (* res.json({ success: true, user: { id, name, avatar } }) *)
| RegisterTaken.
    (* res.status(400).json({ error: "Email или телефон уже заняты" }) *)

(** [app.post('/register', upload.single('avatar'), ...)]. [file] is the
    name multer gave the uploaded avatar, [salt] the salt bcrypt draws.
    Hashing is inside the [try]: its rejection gives the 400 response. *)
Definition post_register (s : pgdb) (phone email password name : jsval)
  (file : option string) (salt : Z) : pgdb * register_response :=
  let avatar := match file with
                | Some f => Some ("/uploads/" ++ f)%string
                | None => None
                end in
  match bcrypt_hash password salt with
  | None => (s, RegisterTaken)
  | Some h =>
      match insert_user s (pg_param phone) (pg_param email) h (pg_param name) avatar with
      | inr (s', id) => (s', Registered id name avatar)
      | inl _ => (s, RegisterTaken)
      end
  end.

(** Responses of [POST /login]. *)
Inductive login_response : Type :=
| LoggedIn (id : Z) (name avatar : option string)
    (* res.json({ success: true, user: { id, name, avatar } }) *)
| LoginInvalid
    (* res.status(400).json({ error: "Неверный логин или пароль" }) *)
| LoginServerError.
    (* res.status(500).json({ error: "Ошибка сервера" }) *)

(** [SELECT * FROM users WHERE email = $1 OR phone = $1], rows in table
    order. *)
Definition select_login (s : pgdb) (login : option string) : list user_row :=
  filter (fun u => sql_text_eq (u_email u) login || sql_text_eq (u_phone u) login)
    (user_rows s).

(** [app.post('/login', ...)]: [user = result.rows[0]]; a missing user
    short-circuits before [bcrypt.compare]; rejections (of the query,
    also for a login holding a NUL byte, or of [bcrypt.compare]) give
    the 500. *)
Definition post_login (s : pgdb) (login password : jsval) : login_response :=
  if negb (db_up (base s)) then LoginServerError else
  if negb (text_param_ok (pg_param login)) then LoginServerError else
  match select_login s (pg_param login) with
  | [] => LoginInvalid
  | user :: _ =>
      match bcrypt_compare password (u_password user) with
      | None => LoginServerError
      | Some false => LoginInvalid
      | Some true => LoggedIn (u_id user) (u_name user) (u_avatar user)
      end
  end.

(** [String(v)], as in the template literal [`%${req.query.q}%`]. *)
Definition js_to_string (v : jsval) : string :=
  match v with
  | JUndef => "undefined"
  | JNull => "null"
  | JBool b => if b then "true" else "false"
  | JNum n => num_to_string n
  | JStr s => s
  end.

(** SQL [LIKE]: [%] matches any run, [_] one character, backslash escapes
    the next character. A pattern ending in a lone backslash is an error
    in Postgres; it cannot arise here (the search pattern ends in [%]) and
    is read as no match. *)
Fixpoint like_match (p s : string) : bool :=
  match p with
  | EmptyString => match s with EmptyString => true | String _ _ => false end
  | String c p' =>
      if Ascii.eqb c "%"%char then
        (fix go (s : string) : bool :=
           like_match p' s || match s with
                              | EmptyString => false
                              | String _ s' => go s'
                              end) s
      else if Ascii.eqb c "_"%char then
        match s with EmptyString => false | String _ s' => like_match p' s' end
      else if Ascii.eqb c "\"%char then
        match p', s with
        | String e p'', String c' s' => Ascii.eqb e c' && like_match p'' s'
        | _, _ => false
        end
      else
        match s with
        | String c' s' => Ascii.eqb c c' && like_match p' s'
        | EmptyString => false
        end
  end.

(** [lower] as a database with the C locale ([LC_CTYPE = C]) folds case:
    ASCII letters only, other bytes left alone; [_] then matches one byte.
    The source does not fix the locale: under a UTF-8 one ILIKE also folds
    Cyrillic letters and [_] matches one character. What is proved about
    search below does not depend on how [ilike] folds case:
    [search_bounded_sound_complete] holds for any filter, and
    [search_nul_finds_nobody] only uses that NUL folds to NUL alone. *)
Definition lower_ascii (c : Ascii.ascii) : Ascii.ascii :=
  let n := Ascii.nat_of_ascii c in
  if (65 <=? n)%nat && (n <=? 90)%nat then Ascii.ascii_of_nat (n + 32) else c.

Fixpoint lower (s : string) : string :=
  match s with
  | EmptyString => EmptyString
  | String c s' => String (lower_ascii c) (lower s')
  end.

(** [name ILIKE pattern]; NULL matches nothing. *)
Definition ilike (name : option string) (pattern : string) : bool :=
  match name with
  | Some n => like_match (lower pattern) (lower n)
  | None => false
  end.

(** [app.get('/search', ...)]: [SELECT id, name, avatar FROM users WHERE
    name ILIKE $1 LIMIT 10] with [$1 = `%${req.query.q}%`], rows in table
    order; a rejection gives [[]]. A pattern holding a NUL byte is
    rejected by Postgres; the model runs the match instead, which finds
    nobody on the tables [/register] builds ([search_nul_finds_nobody]). *)
Definition get_search (s : pgdb) (q : jsval) : list (Z * option string * option string) :=
  if negb (db_up (base s)) then [] else
  let pattern := ("%" ++ js_to_string q ++ "%")%string in
  map (fun u => (u_id u, u_name u, u_avatar u))
    (firstn 10 (filter (fun u => ilike (u_name u) pattern) (user_rows s))).

(** [app.get('/friends/requests', ...)]: [SELECT u.id, u.name, u.avatar,
    f.id FROM friends f JOIN users u ON u.id = f.user_id WHERE f.friend_id
    = $1 AND f.status = 'pending'], in [friends] order; a rejection gives
    [[]]. *)
Definition get_friend_requests (s : pgdb) (userId : jsval)
  : list (Z * option string * option string * Z) :=
  if negb (db_up (base s)) then [] else
  match int4_param (to_number userId) with
  | inl _ => []
  | inr uid =>
      flat_map (fun f =>
        if (friend_id f =? uid) && String.eqb (f_status f) "pending" then
          map (fun u => (u_id u, u_name u, u_avatar u, f_id f))
            (filter (fun u => u_id u =? user_id f) (user_rows s))
        else [])
        (friends (base s))
  end.

(** [UPDATE friends SET status = 'accepted' WHERE id = $1]. *)
Definition accept_request (d : db) (rid : num) : db_error + db :=
  if negb (db_up d) then inl Unavailable else
  match int4_param rid with
  | inl e => inl e
  | inr id =>
      inr (Db (db_up d) (users d) (messages d)
              (map (fun f => if f_id f =? id
                             then FriendRow (f_id f) (user_id f) (friend_id f) "accepted"
                             else f) (friends d))
              (messages_id_seq d) (friends_id_seq d) (now d))
  end.

(** Responses of [POST /friends/accept]. *)
Inductive accept_response : Type :=
| AcceptOk      (* res.json({ success: true }) *)
| AcceptError.  (* res.status(500).json({ error: "Ошибка" }) *)

(** [app.post('/friends/accept', ...)] *)
Definition post_friends_accept (d : db) (requestId : jsval) : db * accept_response :=
  let requestId' := to_number requestId in
  match accept_request d requestId' with
  | inr d' => (d', AcceptOk)
  | inl _ => (d, AcceptError)
  end.

Example on_login_example :
  on_login "s2" (JStr "7") (on_login "s1" (JNum (NInt 7)) []) = [(NInt 7, "s2")].
Proof. reflexivity. Qed.

Example own_keys_example :
  own_keys [(NInt 9, "a"); (NNaN, "b"); (NInt 3, "c"); (NInt (-1), "d")]
  = [NInt 3; NInt 9; NNaN; NInt (-1)].
Proof. reflexivity. Qed.

Example on_disconnect_example :
  on_disconnect "s1" [(NInt 9, "s1"); (NInt 3, "s1"); (NInt 5, "s2")]
  = [(NInt 9, "s1"); (NInt 5, "s2")].
Proof. reflexivity. Qed.

(** A small database: users 1, 2 and 3, empty tables. *)
Definition db0 : db := Db true [1; 2; 3] [] [] 1 1 100.

(** The JS string ["a\u0000b"]. *)
Definition text_with_nul : string := String "a"%char (String "000"%char "b").

Example send_message_online :
  on_send_message "s1" (Payload (JStr "2") (JNum (NInt 1)) (JStr "hi"))
    (State [(NInt 2, "s2")] db0)
  = (State [(NInt 2, "s2")]
       (Db true [1; 2; 3] [MsgRow 1 1 2 (Some "hi") 100] [] 2 1 100),
     [AInsertMessage (NInt 1) (NInt 2) (Some "hi") None;
      AEmit "s2" (ReceiveMessage (NInt 1) (JStr "hi"))]).
Proof. reflexivity. Qed.

Example send_message_unknown_user :
  on_send_message "s1" (Payload (JNum (NInt 9)) (JNum (NInt 1)) (JStr "hi"))
    (State [(NInt 9, "s9")] db0)
  = (State [(NInt 9, "s9")] db0,
     [AInsertMessage (NInt 1) (NInt 9) (Some "hi") (Some ForeignKeyViolation);
      ALogError ForeignKeyViolation]).
Proof. reflexivity. Qed.

(** Accounts: users 1 and 2 of [db0], and a third with neither phone nor
    email nor name. *)
Definition pg0 : pgdb :=
  PgDb db0
    [UserRow 1 (Some "111") (Some "ann@x") (BHash "pw1" 7) (Some "Anna") None;
     UserRow 2 (Some "222") None (BHash "pw2" 8) (Some "Boris") (Some "/uploads/b.png");
     UserRow 3 None None (BHash "pw3" 9) None None]
    4.

Example like_examples :
  like_match "%a_c%" "xxabcx" = true /\ like_match "%a\%%" "a%" = true
  /\ like_match "%a\%%" "ab" = false /\ ilike (Some "Anna") "%NN%" = true.
Proof. repeat split; reflexivity. Qed.

Example search_example :
  get_search pg0 (JStr "an") = [(1, Some "Anna", None)]
  /\ get_search pg0 (JStr "") = [(1, Some "Anna", None); (2, Some "Boris", Some "/uploads/b.png")]
  /\ get_search pg0 JUndef = [].
Proof. repeat split; reflexivity. Qed.

Example register_login_example :
  let (s1, r) := post_register pg0 (JStr "333") (JStr "c@x") (JStr "secret") (JStr "Cy")
                   (Some "1.png") 5 in
  r = Registered 4 (JStr "Cy") (Some "/uploads/1.png")
  /\ post_login s1 (JStr "c@x") (JStr "secret") = LoggedIn 4 (Some "Cy") (Some "/uploads/1.png")
  /\ post_login s1 (JStr "333") (JStr "wrong") = LoginInvalid
  /\ post_login s1 (JStr "333") JUndef = LoginServerError
  /\ snd (post_register s1 (JStr "999") (JStr "c@x") (JStr "x") JUndef None 6) = RegisterTaken.
Proof. repeat split; reflexivity. Qed.

Example friend_requests_example :
  let (d1, _) := post_friends_request db0 (JStr "1") (JStr "2") in
  get_friend_requests (PgDb d1 (user_rows pg0) 4) (JStr "2") = [(1, Some "Anna", None, 1)]
  /\ get_friend_requests (PgDb (fst (post_friends_accept d1 (JNum (NInt 1))))
                            (user_rows pg0) 4) (JStr "2") = [].
Proof. split; reflexivity. Qed.

(* ------------------------------------------------------------------ *)
(** ** Facts about the registry operations *)

(** The [receive_message] emissions of a run, in order. *)
Fixpoint emits (acts : list action) : list (sid * receive_message) :=
  match acts with
  | [] => []
  | AEmit t ev :: acts' => (t, ev) :: emits acts'
  | _ :: acts' => emits acts'
  end.

Lemma get_prop_set_prop_eq k v m : get_prop k (set_prop k v m) = Some v.
Proof.
  induction m as [|[k' v'] m IH]; simpl.
  - rewrite num_eqb_refl; reflexivity.
  - destruct (num_eqb k k') eqn:E; simpl; rewrite E; [reflexivity | exact IH].
Qed.

Lemma get_prop_delete_prop_other k k' m :
  num_eqb k k' = false -> get_prop k (delete_prop k' m) = get_prop k m.
Proof.
  intros Hne. induction m as [|[j v] m IH]; simpl; [reflexivity|].
  destruct (num_eqb k' j) eqn:E1.
  - apply num_eqb_eq in E1; subst j. rewrite Hne. exact IH.
  - simpl. destruct (num_eqb k j); [reflexivity | exact IH].
Qed.

(** The scan of [disconnect] either leaves the object alone or deletes
    one key that it found bound to the closing socket. *)
Lemma disconnect_scan_cases s ids m :
  disconnect_scan s ids m = m
  \/ exists id, get_prop id m = Some s /\ disconnect_scan s ids m = delete_prop id m.
Proof.
  induction ids as [|id ids IH]; simpl; [left; reflexivity|].
  destruct (get_prop id m) as [v|] eqn:Hg; [|exact IH].
  destruct (String.eqb v s) eqn:Hv; [|exact IH].
  apply String.eqb_eq in Hv; subst v. right. exists id. split; [exact Hg | reflexivity].
Qed.

Lemma on_disconnect_keeps_other k v s m :
  get_prop k m = Some v -> v <> s -> get_prop k (on_disconnect s m) = Some v.
Proof.
  intros Hk Hv. unfold on_disconnect.
  destruct (disconnect_scan_cases s (own_keys m) m) as [-> | [id [Hid ->]]];
    [exact Hk|].
  rewrite get_prop_delete_prop_other; [exact Hk|].
  destruct (num_eqb k id) eqn:E; [|reflexivity].
  apply num_eqb_eq in E; subst id. rewrite Hk in Hid. congruence.
Qed.

(** Registries the server can reach from [let onlineUsers = {}]:
    [send_message] only reads the object. *)
Inductive reachable : registry -> Prop :=
| reach_empty : reachable []
| reach_login s u m : reachable m -> reachable (on_login s u m)
| reach_disconnect s m : reachable m -> reachable (on_disconnect s m).

Lemma in_keys_set_prop x k v m :
  In x (map fst (set_prop k v m)) -> x = k \/ In x (map fst m).
Proof.
  induction m as [|[j w] m IH]; simpl.
  - intros [H|[]]. left; congruence.
  - destruct (num_eqb k j); simpl; intros [H|H]; auto.
    destruct (IH H); auto.
Qed.

Lemma set_prop_nodup k v m :
  NoDup (map fst m) -> NoDup (map fst (set_prop k v m)).
Proof.
  induction m as [|[j w] m IH]; simpl; intros Hnd.
  - constructor; [intros []| constructor].
  - inversion Hnd as [|? ? Hj Hm]; subst.
    destruct (num_eqb k j) eqn:E; simpl; [exact Hnd|].
    constructor; [|exact (IH Hm)].
    intros Hin. destruct (in_keys_set_prop _ _ _ _ Hin) as [->|H]; [|contradiction].
    rewrite num_eqb_refl in E. discriminate.
Qed.

Lemma keys_delete_prop k m :
  map fst (delete_prop k m) = filter (fun j => negb (num_eqb k j)) (map fst m).
Proof.
  induction m as [|[j w] m IH]; simpl; [reflexivity|].
  destruct (num_eqb k j); simpl; [exact IH | f_equal; exact IH].
Qed.

Lemma delete_prop_nodup k m :
  NoDup (map fst m) -> NoDup (map fst (delete_prop k m)).
Proof. intros H. rewrite keys_delete_prop. apply NoDup_filter, H. Qed.

Lemma on_disconnect_nodup s m :
  NoDup (map fst m) -> NoDup (map fst (on_disconnect s m)).
Proof.
  intros H. unfold on_disconnect.
  destruct (disconnect_scan_cases s (own_keys m) m) as [-> | [id [_ ->]]];
    [exact H | apply delete_prop_nodup, H].
Qed.

Lemma reachable_nodup m : reachable m -> NoDup (map fst m).
Proof.
  induction 1 as [|s u m _ IH|s m _ IH].
  - constructor.
  - unfold on_login. destruct (negb (truthy u)); [exact IH | apply set_prop_nodup, IH].
  - apply on_disconnect_nodup, IH.
Qed.

Lemma delete_prop_absent k m : ~ In k (map fst m) -> delete_prop k m = m.
Proof.
  induction m as [|[j w] m IH]; simpl; intros Hn; [reflexivity|].
  destruct (num_eqb k j) eqn:E.
  - apply num_eqb_eq in E. exfalso. apply Hn. left. congruence.
  - f_equal. apply IH. intros H; apply Hn; right; exact H.
Qed.

Lemma delete_prop_split k v m :
  NoDup (map fst m) -> get_prop k m = Some v ->
  exists pre post, m = pre ++ (k, v) :: post /\ delete_prop k m = pre ++ post.
Proof.
  induction m as [|[j w] m IH]; simpl; intros Hnd Hg; [discriminate|].
  inversion Hnd as [|? ? Hj Hm]; subst.
  destruct (num_eqb k j) eqn:E.
  - apply num_eqb_eq in E; subst j. injection Hg as <-.
    exists [], m. split; [reflexivity|]. apply delete_prop_absent, Hj.
  - destruct (IH Hm Hg) as [pre [post [H1 H2]]].
    exists ((j, w) :: pre), post. split; [simpl; congruence|simpl; congruence].
Qed.

Lemma insert_message_ok d from to p d' :
  insert_message d from to p = inr d' ->
  exists r, messages d' = messages d ++ [r]
            /\ NInt (sender_id r) = from /\ NInt (receiver_id r) = to
            /\ m_text r = p.
Proof.
  unfold insert_message. destruct (db_up d); simpl; [|discriminate].
  destruct from as [zf|], to as [zt|]; simpl; try discriminate;
    repeat match goal with
           | |- context [if ?c then _ else _] => destruct c eqn:?
           end; try discriminate.
  intros H. injection H as <-. eexists. simpl. repeat split; reflexivity.
Qed.

Lemma int4_param_value z z' : int4_param (NInt z) = inr z' -> z' = z.
Proof.
  unfold int4_param. destruct (_ && _); intros H; congruence.
Qed.

(** The rows in the [friends] table from [a] to [b]. *)
Definition edge_exists (d : db) (a b : Z) : bool :=
  existsb (fun r => (user_id r =? a) && (friend_id r =? b)) (friends d).

(* ------------------------------------------------------------------ *)
(** ** Claims *)

(** C1: every [send_message] first issues the INSERT of the message row,
    before anything is emitted; when that INSERT is rejected the handler
    only logs the error: the state is unchanged and nothing is emitted. *)
Theorem send_message_persists_first :
  forall (socket_id : sid) (data : payload) (st : state),
    exists from to p o rest,
      snd (on_send_message socket_id data st) = AInsertMessage from to p o :: rest
      /\ (o <> None ->
          fst (on_send_message socket_id data st) = st /\ emits rest = []).
Proof.
  intros socket_id data st. unfold on_send_message.
  destruct (insert_message (store st) (to_number (fromUserId data))
              (to_number (toUserId data)) (pg_param (text data))) as [e|d'] eqn:Hi.
  - do 5 eexists. split; [reflexivity|]. intros _. split; reflexivity.
  - destruct (get_prop (to_number (toUserId data)) (onlineUsers st)) as [r|].
    + destruct (negb (String.eqb r "")).
      * do 5 eexists. split; [reflexivity|]. intros H; congruence.
      * do 5 eexists. split; [reflexivity|]. intros H; congruence.
    + do 5 eexists. split; [reflexivity|]. intros H; congruence.
Qed.

(** C2: connection [c1] logs in as [u1], then connection [c2] logs in as
    [u2] with [Number(u1) = Number(u2)]; when [c1] disconnects, the key
    [Number(u2)] is still bound to [c2]. *)
Theorem stale_disconnect_keeps_newer_binding :
  forall (m : registry) (c1 c2 : sid) (u1 u2 : jsval),
    c1 <> c2 -> truthy u1 = true -> truthy u2 = true ->
    to_number u1 = to_number u2 ->
    get_prop (to_number u2) (on_disconnect c1 (on_login c2 u2 (on_login c1 u1 m)))
    = Some c2.
Proof.
  intros m c1 c2 u1 u2 Hc Ht1 Ht2 Hu.
  apply on_disconnect_keeps_other; [|congruence].
  unfold on_login at 1. rewrite Ht2. simpl. apply get_prop_set_prop_eq.
Qed.

Lemma stale_disconnect_keeps_newer_binding_witness :
  get_prop (NInt 7)
    (on_disconnect "c1" (on_login "c2" (JNum (NInt 7)) (on_login "c1" (JStr "7") [])))
  = Some "c2".
Proof.
  apply (stale_disconnect_keeps_newer_binding [] "c1" "c2" (JStr "7") (JNum (NInt 7)));
    [discriminate | reflexivity | reflexivity | reflexivity].
Defined.

Lemma in_conversation_sym a b r : in_conversation a b r = in_conversation b a r.
Proof. unfold in_conversation. apply orb_comm. Qed.

(** Whatever the engine's implementation of ORDER BY, the SELECT does not
    depend on the order of its two parameters. *)
Lemma select_conversation_with_sym order_by d a b :
  match select_conversation_with order_by d a b,
        select_conversation_with order_by d b a with
  | inr r1, inr r2 => r1 = r2
  | inl _, inl _ => True
  | _, _ => False
  end.
Proof.
  unfold select_conversation_with.
  destruct (db_up d); simpl; [|exact I].
  destruct (int4_param a) as [ea|x], (int4_param b) as [eb|y]; try exact I.
  f_equal. apply filter_ext. intros r. apply in_conversation_sym.
Qed.

(** C9: [GET /messages] answers the same rows for [(myId, userId)] and
    for [(userId, myId)]. *)
Theorem get_messages_symmetric :
  forall (d : db) (a b : jsval), get_messages d a b = get_messages d b a.
Proof.
  intros d a b. unfold get_messages, select_conversation.
  pose proof (select_conversation_with_sym order_by_created_at d
                (to_number a) (to_number b)) as H.
  destruct (select_conversation_with order_by_created_at d (to_number a) (to_number b)),
           (select_conversation_with order_by_created_at d (to_number b) (to_number a));
    solve [exact H | reflexivity | contradiction].
Qed.

(** C10: a [login] whose user id is falsy ([0], [null], [""], [false],
    [undefined], NaN) leaves [onlineUsers] as it was. *)
Theorem login_falsy_id_noop :
  forall (socket_id : sid) (userId : jsval) (m : registry),
    truthy userId = false -> on_login socket_id userId m = m.
Proof. intros socket_id userId m H. unfold on_login. rewrite H. reflexivity. Qed.

Lemma login_falsy_id_noop_witness :
  on_login "s1" (JNum (NInt 0)) [(NInt 5, "s5")] = [(NInt 5, "s5")]
  /\ on_login "s1" (JStr "") [] = [].
Proof.
  split; apply login_falsy_id_noop; reflexivity.
Defined.

(** C3 (counterexample): a [send_message] whose INSERT succeeds and whose
    recipient is offline does nothing but the INSERT; no report of any
    kind reaches the sender's connection ["s1"]. *)
Lemma send_message_no_report_counterexample :
  let r := on_send_message "s1" (Payload (JNum (NInt 2)) (JNum (NInt 1)) (JStr "hi"))
             (State [] db0) in
  snd r = [AInsertMessage (NInt 1) (NInt 2) (Some "hi") None]
  /\ messages (store (fst r)) = [MsgRow 1 1 2 (Some "hi") 100]
  /\ emits (snd r) = [].
Proof. repeat split; reflexivity. Qed.

(** C3 (amended): [send_message] reports nothing to the sender; its only
    emission is at most one [receive_message { from, text }], addressed to
    the socket bound to [Number(toUserId)]. *)
Theorem send_message_emits_only_to_recipient :
  forall (socket_id : sid) (data : payload) (st : state),
    emits (snd (on_send_message socket_id data st)) = []
    \/ exists t,
         get_prop (to_number (toUserId data)) (onlineUsers st) = Some t
         /\ emits (snd (on_send_message socket_id data st))
            = [(t, ReceiveMessage (to_number (fromUserId data)) (text data))].
Proof.
  intros socket_id data st. unfold on_send_message.
  destruct (insert_message (store st) (to_number (fromUserId data))
              (to_number (toUserId data)) (pg_param (text data))); [left; reflexivity|].
  destruct (get_prop (to_number (toUserId data)) (onlineUsers st)) as [t|] eqn:Hg;
    [|left; reflexivity].
  destruct (negb (String.eqb t "")); [|left; reflexivity].
  right. exists t. split; reflexivity.
Qed.

(** C4: on every reachable [onlineUsers], the [disconnect] scan of a
    socket removes nothing or exactly one entry, one bound to that
    socket. *)
Theorem disconnect_removes_at_most_one :
  forall (s : sid) (m : registry),
    reachable m ->
    on_disconnect s m = m
    \/ exists pre k post, m = pre ++ (k, s) :: post /\ on_disconnect s m = pre ++ post.
Proof.
  intros s m Hr. pose proof (reachable_nodup m Hr) as Hnd. unfold on_disconnect.
  destruct (disconnect_scan_cases s (own_keys m) m) as [-> | [id [Hid ->]]];
    [left; reflexivity|].
  right. destruct (delete_prop_split id s m Hnd Hid) as [pre [post [H1 H2]]].
  exists pre, id, post. split; assumption.
Qed.

Definition registry_two_logins : registry :=
  on_login "s2" (JNum (NInt 8)) (on_login "s1" (JNum (NInt 7)) []).

Lemma disconnect_removes_at_most_one_witness :
  exists pre k post,
    registry_two_logins = pre ++ (k, "s1") :: post
    /\ on_disconnect "s1" registry_two_logins = pre ++ post.
Proof.
  destruct (disconnect_removes_at_most_one "s1" registry_two_logins)
    as [H | H].
  - unfold registry_two_logins. repeat constructor.
  - exfalso. vm_compute in H. discriminate.
  - exact H.
Defined.

(** C5: when the recipient [Number(toUserId)] is bound to a socket (a
    Socket.IO id, never empty) at the time the registry is read, a
    dispatch whose INSERT succeeds emits exactly one
    [receive_message { from: Number(fromUserId), text }], to that socket,
    and nothing to any other; a dispatch whose INSERT fails emits
    nothing. *)
Theorem send_message_delivers_to_bound_recipient :
  forall (socket_id : sid) (data : payload) (st : state) (t : sid),
    get_prop (to_number (toUserId data)) (onlineUsers st) = Some t ->
    t <> "" ->
    emits (snd (on_send_message socket_id data st))
    = match insert_message (store st) (to_number (fromUserId data))
              (to_number (toUserId data)) (pg_param (text data)) with
      | inr _ => [(t, ReceiveMessage (to_number (fromUserId data)) (text data))]
      | inl _ => []
      end.
Proof.
  intros socket_id data st t Hg Ht. unfold on_send_message.
  destruct (insert_message (store st) (to_number (fromUserId data))
              (to_number (toUserId data)) (pg_param (text data))); [reflexivity|].
  rewrite Hg. destruct (String.eqb t "") eqn:E.
  - apply String.eqb_eq in E. contradiction.
  - reflexivity.
Qed.

Lemma send_message_delivers_to_bound_recipient_witness :
  emits (snd (on_send_message "s1"
                (Payload (JStr "2") (JNum (NInt 1)) (JStr "hi"))
                (State [(NInt 2, "s2")] db0)))
  = [("s2", ReceiveMessage (NInt 1) (JStr "hi"))]
  /\ emits (snd (on_send_message "s1"
                   (Payload (JStr "2") (JNum (NInt 9)) (JStr "hi"))
                   (State [(NInt 2, "s2")] db0)))
     = [].
Proof.
  split;
    [apply (send_message_delivers_to_bound_recipient "s1"
              (Payload (JStr "2") (JNum (NInt 1)) (JStr "hi"))
              (State [(NInt 2, "s2")] db0) "s2")
    |apply (send_message_delivers_to_bound_recipient "s1"
              (Payload (JStr "2") (JNum (NInt 9)) (JStr "hi"))
              (State [(NInt 2, "s2")] db0) "s2")];
    solve [reflexivity | discriminate].
Defined.

(** C6 (counterexample): the recipient 3 is offline and the INSERT
    succeeds. The handler's whole effect is the stored row: no result
    comes back and nothing is sent to the sender's socket ["s1"], so
    there is no [delivered=false] flag. *)
Lemma send_message_offline_counterexample :
  get_prop (NInt 3) [(NInt 1, "s1")] = None
  /\ on_send_message "s1" (Payload (JNum (NInt 3)) (JStr "1") (JStr "hello"))
       (State [(NInt 1, "s1")] db0)
     = (State [(NInt 1, "s1")]
          (Db true [1; 2; 3] [MsgRow 1 1 3 (Some "hello") 100] [] 2 1 100),
        [AInsertMessage (NInt 1) (NInt 3) (Some "hello") None]).
Proof. split; reflexivity. Qed.

(** C6 (amended): when [Number(toUserId)] is not bound, the handler
    emits nothing and returns no result. When the INSERT succeeds its
    whole effect is the new row (sender, receiver, text), the last row of
    [messages]; when it fails the error is logged and the state is
    unchanged, so no row is stored. *)
Theorem send_message_offline_persists :
  forall (socket_id : sid) (data : payload) (st : state),
    get_prop (to_number (toUserId data)) (onlineUsers st) = None ->
    emits (snd (on_send_message socket_id data st)) = []
    /\ match insert_message (store st) (to_number (fromUserId data))
               (to_number (toUserId data)) (pg_param (text data)) with
       | inr d' =>
           on_send_message socket_id data st
           = (State (onlineUsers st) d',
              [AInsertMessage (to_number (fromUserId data)) (to_number (toUserId data))
                 (pg_param (text data)) None])
           /\ exists r, messages d' = messages (store st) ++ [r]
                        /\ NInt (sender_id r) = to_number (fromUserId data)
                        /\ NInt (receiver_id r) = to_number (toUserId data)
                        /\ m_text r = pg_param (text data)
       | inl e =>
           on_send_message socket_id data st
           = (st, [AInsertMessage (to_number (fromUserId data)) (to_number (toUserId data))
                     (pg_param (text data)) (Some e); ALogError e])
       end.
Proof.
  intros socket_id data st Hg. unfold on_send_message.
  destruct (insert_message (store st) (to_number (fromUserId data))
              (to_number (toUserId data)) (pg_param (text data))) as [e|d'] eqn:Hi.
  - split; reflexivity.
  - rewrite Hg. split; [reflexivity|]. split; [reflexivity|].
    exact (insert_message_ok _ _ _ _ _ Hi).
Qed.

Lemma send_message_offline_persists_witness :
  emits (snd (on_send_message "s1" (Payload (JNum (NInt 3)) (JNum (NInt 1)) (JStr text_with_nul))
                (State [] db0))) = []
  /\ on_send_message "s1" (Payload (JNum (NInt 3)) (JNum (NInt 1)) (JStr text_with_nul))
       (State [] db0)
     = (State [] db0,
        [AInsertMessage (NInt 1) (NInt 3) (Some text_with_nul) (Some InvalidByteSequence);
         ALogError InvalidByteSequence]).
Proof.
  exact (send_message_offline_persists "s1"
           (Payload (JNum (NInt 3)) (JNum (NInt 1)) (JStr text_with_nul)) (State [] db0) eq_refl).
Defined.

(** C7 (counterexample): a payload without [text] is stored with a NULL
    text, and a payload without [fromUserId] still reaches the store,
    which is the one to reject it. *)
Lemma send_message_no_validation_counterexample :
  let r1 := on_send_message "s1" (Payload (JNum (NInt 2)) (JNum (NInt 1)) JUndef)
              (State [] db0) in
  let r2 := on_send_message "s1" (Payload (JNum (NInt 2)) JUndef (JStr "hi"))
              (State [] db0) in
  snd r1 = [AInsertMessage (NInt 1) (NInt 2) None None]
  /\ messages (store (fst r1)) = [MsgRow 1 1 2 None 100]
  /\ snd r2 = [AInsertMessage NNaN (NInt 2) (Some "hi") (Some InvalidIntegerSyntax);
               ALogError InvalidIntegerSyntax].
Proof. repeat split; reflexivity. Qed.

(** The text of a message matters to the INSERT only through the
    encoding check of its parameter. *)
Lemma insert_message_text_check d from to p :
  (exists d1, insert_message d from to p = inr d1)
  <-> text_param_ok p = true /\ (exists d2, insert_message d from to None = inr d2).
Proof.
  unfold insert_message. destruct (db_up d); simpl;
    [|split; [intros [x Hx]; discriminate | intros [_ [x Hx]]; discriminate]].
  destruct (int4_param from), (int4_param to);
    try (split; [intros [x Hx]; discriminate | intros [_ [x Hx]]; discriminate]).
  destruct (text_param_ok p); simpl;
    [|split; [intros [x Hx]; discriminate | intros [H _]; discriminate]].
  destruct (user_exists d z && user_exists d z0);
    [split; [intros _; split; [reflexivity | eexists; reflexivity]
            | intros _; eexists; reflexivity]
    |split; [intros [x Hx]; discriminate | intros [_ [x Hx]]; discriminate]].
Qed.

(** C7 (amended): [send_message] validates nothing itself. A [null] or
    [undefined] argument throws at the destructuring, outside the [try]:
    no store call, nothing emitted. For any other argument the first
    action is the INSERT of [Number(fromUserId)], [Number(toUserId)] and
    the raw [text] (a missing text is NULL); the row is stored exactly
    when the store accepts the two ids and the text holds no NUL byte. *)
Theorem send_message_inserts_unvalidated :
  forall (socket_id : sid) (data : option payload) (st : state),
    match data with
    | None => snd (on_send_message_event socket_id data st) = [AUncaughtTypeError]
    | Some p =>
        exists o rest,
          snd (on_send_message_event socket_id data st)
          = AInsertMessage (to_number (fromUserId p)) (to_number (toUserId p))
              (pg_param (text p)) o :: rest
          /\ (o = None <->
              text_param_ok (pg_param (text p)) = true
              /\ exists d', insert_message (store st) (to_number (fromUserId p))
                             (to_number (toUserId p)) None = inr d')
    end.
Proof.
  intros socket_id [data|] st; [|reflexivity]. unfold on_send_message_event, on_send_message.
  pose proof (insert_message_text_check (store st) (to_number (fromUserId data))
                (to_number (toUserId data)) (pg_param (text data))) as Hchk.
  destruct (insert_message (store st) (to_number (fromUserId data))
              (to_number (toUserId data)) (pg_param (text data))) as [e|d'] eqn:Hi.
  - do 2 eexists. split; [reflexivity|]. rewrite <- Hchk.
    split; [discriminate | intros [x Hx]; discriminate].
  - assert (Hok : text_param_ok (pg_param (text data)) = true
                  /\ exists d2, insert_message (store st) (to_number (fromUserId data))
                                  (to_number (toUserId data)) None = inr d2)
      by (apply Hchk; exists d'; reflexivity).
    destruct (get_prop (to_number (toUserId data)) (onlineUsers st)) as [t|];
      [destruct (negb (String.eqb t ""))|];
      do 2 eexists; (split; [reflexivity | split; intros _; [exact Hok | reflexivity]]).
Qed.

(** A [friends] table holding the requests 1 -> 2 and 2 -> 1. *)
Definition db_mutual : db :=
  Db true [1; 2] [] [FriendRow 1 1 2 "pending"; FriendRow 2 2 1 "pending"] 1 3 100.

(** C8: for distinct users [a] and [b] with an edge [a -> b] (pending or
    not), a second request [a -> b] is answered with the 400 "request
    already exists" response (the UNIQUE violation) and changes nothing;
    a request [b -> a] that is not itself a duplicate (no [b -> a] edge
    yet), with the store reachable and [a], [b] existing users with
    INTEGER ids, succeeds and stores a pending [b -> a] edge. *)
Theorem friend_request_duplicate_and_reverse :
  forall (d : db) (a b : Z) (fa fb : jsval),
    a <> b -> to_number fa = NInt a -> to_number fb = NInt b ->
    edge_exists d a b = true ->
    post_friends_request d fa fb = (d, FriendRequestExists)
    /\ (db_up d = true -> int4_param (NInt a) = inr a -> int4_param (NInt b) = inr b ->
        user_exists d a = true -> user_exists d b = true ->
        edge_exists d b a = false ->
        post_friends_request d fb fa
        = (Db true (users d) (messages d)
              (friends d ++ [FriendRow (friends_id_seq d) b a "pending"])
              (messages_id_seq d) (friends_id_seq d + 1) (now d),
           FriendRequestSent)).
Proof.
  intros d a b fa fb Hab Ha Hb He. split.
  - unfold post_friends_request, insert_friend. rewrite Ha, Hb.
    destruct (db_up d); [|reflexivity]. simpl negb; cbv iota.
    destruct (int4_param (NInt a)) as [|a'] eqn:Ea; [reflexivity|].
    destruct (int4_param (NInt b)) as [|b'] eqn:Eb; [reflexivity|].
    apply int4_param_value in Ea, Eb. subst a' b'.
    unfold edge_exists in He. rewrite He. reflexivity.
  - intros Hup Hia Hib Hua Hub Hba.
    unfold post_friends_request, insert_friend. rewrite Ha, Hb, Hup, Hia, Hib.
    unfold edge_exists in Hba. simpl negb; cbv iota.
    rewrite Hba, Hub, Hua. reflexivity.
Qed.

Lemma friend_request_duplicate_and_reverse_witness :
  post_friends_request (Db true [1; 2] [] [FriendRow 1 1 2 "pending"] 1 2 100)
    (JStr "1") (JStr "2")
  = (Db true [1; 2] [] [FriendRow 1 1 2 "pending"] 1 2 100, FriendRequestExists)
  /\ post_friends_request (Db true [1; 2] [] [FriendRow 1 1 2 "pending"] 1 2 100)
       (JStr "2") (JStr "1")
     = (Db true [1; 2] [] [FriendRow 1 1 2 "pending"; FriendRow 2 2 1 "pending"] 1 3 100,
        FriendRequestSent).
Proof.
  destruct (friend_request_duplicate_and_reverse
              (Db true [1; 2] [] [FriendRow 1 1 2 "pending"] 1 2 100) 1 2
              (JStr "1") (JStr "2")) as [H1 H2];
    [lia | reflexivity | reflexivity | reflexivity |].
  split; [exact H1|].
  apply H2; reflexivity.
Defined.

(* ------------------------------------------------------------------ *)
(** ** Further properties of the socket handlers *)

Lemma get_prop_set_prop_other k k' v m :
  k <> k' -> get_prop k (set_prop k' v m) = get_prop k m.
Proof.
  intros Hne. induction m as [|[j w] m IH]; simpl.
  - destruct (num_eqb k k') eqn:E; [apply num_eqb_eq in E; contradiction | reflexivity].
  - destruct (num_eqb k' j) eqn:E1; simpl.
    + apply num_eqb_eq in E1; subst j.
      destruct (num_eqb k k') eqn:E2; [apply num_eqb_eq in E2; contradiction|reflexivity].
    + destruct (num_eqb k j); [reflexivity | exact IH].
Qed.

Lemma get_prop_delete_prop_eq k m : get_prop k (delete_prop k m) = None.
Proof.
  induction m as [|[j w] m IH]; simpl; [reflexivity|].
  destruct (num_eqb k j) eqn:E; [exact IH|]. simpl. rewrite E. exact IH.
Qed.

Lemma get_prop_in_keys k v m : get_prop k m = Some v -> In k (map fst m).
Proof.
  induction m as [|[j w] m IH]; simpl; [discriminate|].
  destruct (num_eqb k j) eqn:E; intros H.
  - apply num_eqb_eq in E. left. congruence.
  - right. exact (IH H).
Qed.

Lemma in_insert_index x k ks : In x (insert_index k ks) <-> x = k \/ In x ks.
Proof.
  induction ks as [|j ks IH]; simpl.
  - split; [intros [H|[]]; left; congruence | intros [H|[]]; left; congruence].
  - destruct (index_of k <=? index_of j); simpl.
    + split; intros H; intuition congruence.
    + rewrite IH. split; intros H; intuition congruence.
Qed.

Lemma in_sort_indices x ks : In x (sort_indices ks) <-> In x ks.
Proof.
  induction ks as [|j ks IH]; simpl; [reflexivity|].
  rewrite in_insert_index, IH. split; intros [H|H]; auto.
Qed.

(** [for ... in] visits every key of the object. *)
Lemma in_own_keys k m : In k (map fst m) -> In k (own_keys m).
Proof.
  intros H. unfold own_keys. apply in_or_app.
  destruct (is_array_index k) eqn:E.
  - left. apply in_sort_indices, filter_In. split; assumption.
  - right. apply filter_In. rewrite E. split; [assumption | reflexivity].
Qed.

Lemma disconnect_scan_finds s ids m :
  (exists id, In id ids /\ get_prop id m = Some s) ->
  exists id, get_prop id m = Some s /\ disconnect_scan s ids m = delete_prop id m.
Proof.
  induction ids as [|i ids IH]; simpl; intros [id [Hin Hg]]; [contradiction|].
  destruct (get_prop i m) as [v|] eqn:Hi.
  - destruct (String.eqb v s) eqn:Hv.
    + apply String.eqb_eq in Hv; subst v. exists i. split; [exact Hi | reflexivity].
    + apply IH. destruct Hin as [<-|Hin]; [|exists id; split; assumption].
      rewrite Hg in Hi. injection Hi as ->. rewrite String.eqb_refl in Hv. discriminate.
  - apply IH. destruct Hin as [<-|Hin]; [congruence|exists id; split; assumption].
Qed.

(** A [login] with a truthy id binds [Number(userId)] to the socket and
    leaves every other key as it was. *)
Theorem login_binds_only_its_key :
  forall (s : sid) (u : jsval) (m : registry),
    truthy u = true ->
    get_prop (to_number u) (on_login s u m) = Some s
    /\ forall k, k <> to_number u -> get_prop k (on_login s u m) = get_prop k m.
Proof.
  intros s u m Hu. unfold on_login. rewrite Hu. simpl. split.
  - apply get_prop_set_prop_eq.
  - intros k Hk. apply get_prop_set_prop_other, Hk.
Qed.

Lemma login_binds_only_its_key_witness :
  get_prop (NInt 7) (on_login "s1" (JStr "7") [(NInt 3, "s3")]) = Some "s1"
  /\ get_prop (NInt 3) (on_login "s1" (JStr "7") [(NInt 3, "s3")]) = Some "s3".
Proof.
  destruct (login_binds_only_its_key "s1" (JStr "7") [(NInt 3, "s3")] eq_refl)
    as [H1 H2].
  split; [exact H1 | apply H2; discriminate].
Defined.

(** On a reachable registry, the [disconnect] of a socket bound under a
    single key leaves the socket bound nowhere. *)
Theorem disconnect_clears_single_binding :
  forall (s : sid) (m : registry),
    reachable m ->
    (forall k1 k2, get_prop k1 m = Some s -> get_prop k2 m = Some s -> k1 = k2) ->
    forall k, get_prop k (on_disconnect s m) <> Some s.
Proof.
  intros s m Hr Huniq k Hk. unfold on_disconnect in Hk.
  destruct (disconnect_scan_cases s (own_keys m) m) as [Heq | [id [Hid Heq]]];
    rewrite Heq in Hk.
  - assert (Hf : exists id, In id (own_keys m) /\ get_prop id m = Some s)
      by (exists k; split; [apply in_own_keys, (get_prop_in_keys k s), Hk | exact Hk]).
    destruct (disconnect_scan_finds s (own_keys m) m Hf) as [id [Hid Hdel]].
    rewrite Heq in Hdel.
    assert (k = id) by (apply Huniq; assumption). subst id.
    rewrite Hdel, get_prop_delete_prop_eq in Hk. discriminate.
  - destruct (num_eqb k id) eqn:E.
    + apply num_eqb_eq in E; subst id. rewrite get_prop_delete_prop_eq in Hk. discriminate.
    + rewrite get_prop_delete_prop_other in Hk by exact E.
      assert (k = id) by (apply Huniq; assumption). subst id.
      rewrite num_eqb_refl in E. discriminate.
Qed.

(** Socket ["s1"] logged in as 7 and then as 8, with ["s2"] as 9. *)
Definition registry_two_ids : registry :=
  on_login "s2" (JNum (NInt 9))
    (on_login "s1" (JNum (NInt 8)) (on_login "s1" (JNum (NInt 7)) [])).

Definition registry_one_login : registry :=
  on_login "s2" (JNum (NInt 8)) (on_login "s1" (JNum (NInt 7)) []).

Lemma disconnect_clears_single_binding_witness :
  get_prop (NInt 7) (on_disconnect "s1" registry_one_login) <> Some "s1".
Proof.
  apply disconnect_clears_single_binding.
  - unfold registry_one_login. repeat constructor.
  - intros k1 k2 H1 H2. unfold registry_one_login in *. simpl in H1, H2.
    destruct (num_eqb k1 (NInt 7)) eqn:E1, (num_eqb k2 (NInt 7)) eqn:E2;
      try (destruct (num_eqb _ (NInt 8)); discriminate).
    apply num_eqb_eq in E1, E2. congruence.
Defined.

(** A socket bound under exactly two different ids loses exactly one of
    the two bindings at its [disconnect]: the scan deletes the first key
    it finds and stops. *)
Theorem disconnect_leaves_second_binding :
  forall (s : sid) (m : registry) (k1 k2 : num),
    k1 <> k2 -> get_prop k1 m = Some s -> get_prop k2 m = Some s ->
    (forall k, get_prop k m = Some s -> k = k1 \/ k = k2) ->
    (get_prop k1 (on_disconnect s m) = None /\ get_prop k2 (on_disconnect s m) = Some s)
    \/ (get_prop k1 (on_disconnect s m) = Some s /\ get_prop k2 (on_disconnect s m) = None).
Proof.
  intros s m k1 k2 Hne H1 H2 Honly. unfold on_disconnect.
  assert (Hf : exists id, In id (own_keys m) /\ get_prop id m = Some s)
    by (exists k1; split; [apply in_own_keys, (get_prop_in_keys k1 s), H1 | exact H1]).
  destruct (disconnect_scan_finds s (own_keys m) m Hf) as [id [Hid ->]].
  assert (E12 : num_eqb k1 k2 = false)
    by (destruct (num_eqb k1 k2) eqn:E; [apply num_eqb_eq in E; contradiction | reflexivity]).
  destruct (Honly id Hid) as [-> | ->].
  - left. split; [apply get_prop_delete_prop_eq|].
    rewrite get_prop_delete_prop_other; [exact H2 | rewrite num_eqb_sym; exact E12].
  - right. split; [|apply get_prop_delete_prop_eq].
    rewrite get_prop_delete_prop_other; [exact H1 | exact E12].
Qed.

Lemma disconnect_leaves_second_binding_witness :
  (get_prop (NInt 7) (on_disconnect "s1" registry_two_ids) = None
   /\ get_prop (NInt 8) (on_disconnect "s1" registry_two_ids) = Some "s1")
  \/ (get_prop (NInt 7) (on_disconnect "s1" registry_two_ids) = Some "s1"
      /\ get_prop (NInt 8) (on_disconnect "s1" registry_two_ids) = None).
Proof.
  apply disconnect_leaves_second_binding; [discriminate | reflexivity | reflexivity |].
  intros k Hk. unfold registry_two_ids in Hk. simpl in Hk.
  destruct (num_eqb k (NInt 7)) eqn:E7; [left; apply num_eqb_eq; exact E7|].
  destruct (num_eqb k (NInt 8)) eqn:E8; [right; apply num_eqb_eq; exact E8|].
  destruct (num_eqb k (NInt 9)); discriminate.
Defined.

(** The [disconnect] of a socket bound under no key changes nothing. *)
Theorem disconnect_unbound_noop :
  forall (s : sid) (m : registry),
    (forall k, get_prop k m <> Some s) -> on_disconnect s m = m.
Proof.
  intros s m Hn. unfold on_disconnect.
  destruct (disconnect_scan_cases s (own_keys m) m) as [H | [id [Hid _]]];
    [exact H | exfalso; exact (Hn id Hid)].
Qed.

Lemma disconnect_unbound_noop_witness :
  on_disconnect "s9" [(NInt 1, "s1"); (NInt 2, "s2")] = [(NInt 1, "s1"); (NInt 2, "s2")].
Proof.
  apply disconnect_unbound_noop. intros k. simpl.
  destruct (num_eqb k (NInt 1)); [discriminate|].
  destruct (num_eqb k (NInt 2)); discriminate.
Defined.

(** The [disconnect] of a socket keeps every binding of the other
    sockets. *)
Theorem disconnect_keeps_other_sockets :
  forall (s : sid) (m : registry) (k : num) (v : sid),
    get_prop k m = Some v -> v <> s -> get_prop k (on_disconnect s m) = Some v.
Proof. intros s m k v Hk Hv. exact (on_disconnect_keeps_other k v s m Hk Hv). Qed.

Lemma disconnect_keeps_other_sockets_witness :
  get_prop (NInt 2) (on_disconnect "s1" [(NInt 1, "s1"); (NInt 2, "s2")]) = Some "s2".
Proof. apply disconnect_keeps_other_sockets; [reflexivity | discriminate]. Defined.

(** After a later [login] of connection [c2] under the same id, a
    persisted message to that id is pushed to [c2] alone. *)
Theorem relogin_receives_messages :
  forall (c2 sender : sid) (u : jsval) (m : registry) (d d' : db) (data : payload),
    truthy u = true -> c2 <> "" ->
    to_number (toUserId data) = to_number u ->
    insert_message d (to_number (fromUserId data)) (to_number (toUserId data))
      (pg_param (text data)) = inr d' ->
    emits (snd (on_send_message sender data (State (on_login c2 u m) d)))
    = [(c2, ReceiveMessage (to_number (fromUserId data)) (text data))].
Proof.
  intros c2 sender u m d d' data Hu Hc Hto Hi. unfold on_send_message. simpl.
  rewrite Hi, Hto. unfold on_login. rewrite Hu. simpl.
  rewrite get_prop_set_prop_eq.
  destruct (String.eqb c2 "") eqn:E; [apply String.eqb_eq in E; contradiction|reflexivity].
Qed.

Lemma relogin_receives_messages_witness :
  emits (snd (on_send_message "s1" (Payload (JStr "2") (JNum (NInt 1)) (JStr "hi"))
                (State (on_login "c2" (JNum (NInt 2)) [(NInt 2, "c1")]) db0)))
  = [("c2", ReceiveMessage (NInt 1) (JStr "hi"))].
Proof.
  apply (relogin_receives_messages "c2" "s1" (JNum (NInt 2)) [(NInt 2, "c1")] db0
           (Db true [1; 2; 3] [MsgRow 1 1 2 (Some "hi") 100] [] 2 1 100));
    [reflexivity | discriminate | reflexivity | reflexivity].
Defined.

(* ------------------------------------------------------------------ *)
(** ** The message history *)

Definition created_le (r1 r2 : msg_row) : Prop := created_at r1 <= created_at r2.

Lemma insert_by_created_perm r rs : Permutation (insert_by_created r rs) (r :: rs).
Proof.
  induction rs as [|r' rs IH]; simpl; [reflexivity|].
  destruct (created_at r <? created_at r'); [reflexivity|].
  rewrite IH. apply perm_swap.
Qed.

Lemma insert_by_created_sorted r rs :
  Sorted created_le rs -> Sorted created_le (insert_by_created r rs).
Proof.
  induction 1 as [|r' rs Hs IH Hhd]; simpl.
  - repeat constructor.
  - destruct (created_at r <? created_at r') eqn:E.
    + apply Z.ltb_lt in E. constructor; [constructor; assumption|].
      constructor. unfold created_le. lia.
    + apply Z.ltb_ge in E. constructor; [exact IH|].
      destruct rs as [|r'' rs]; simpl.
      * constructor. unfold created_le. lia.
      * inversion Hhd as [|? ? Hle]; subst.
        destruct (created_at r <? created_at r''); constructor; unfold created_le in *; lia.
Qed.

Lemma order_by_fold_perm l acc :
  Permutation (fold_left (fun acc r => insert_by_created r acc) l acc) (l ++ acc).
Proof.
  revert acc. induction l as [|r l IH]; intros acc; simpl; [reflexivity|].
  rewrite IH, insert_by_created_perm. symmetry. apply Permutation_middle.
Qed.

Lemma order_by_fold_sorted l acc :
  Sorted created_le acc ->
  Sorted created_le (fold_left (fun acc r => insert_by_created r acc) l acc).
Proof.
  revert acc. induction l as [|r l IH]; intros acc Hs; simpl; [exact Hs|].
  apply IH, insert_by_created_sorted, Hs.
Qed.

Lemma insert_by_created_last r rs :
  (forall r', In r' rs -> created_at r' <= created_at r) ->
  insert_by_created r rs = rs ++ [r].
Proof.
  induction rs as [|r' rs IH]; intros H; simpl; [reflexivity|].
  destruct (created_at r <? created_at r') eqn:E.
  - apply Z.ltb_lt in E. specialize (H r' (or_introl eq_refl)). lia.
  - f_equal. apply IH. intros x Hx. apply H. right. exact Hx.
Qed.

Lemma order_by_created_at_snoc l r :
  (forall r', In r' l -> created_at r' <= created_at r) ->
  order_by_created_at (l ++ [r]) = order_by_created_at l ++ [r].
Proof.
  intros H. unfold order_by_created_at. rewrite fold_left_app. simpl.
  apply insert_by_created_last. intros x Hx.
  apply H. apply (Permutation_in _ (order_by_fold_perm l [])) in Hx.
  rewrite app_nil_r in Hx. exact Hx.
Qed.

(** When the store is reachable and both ids are INTEGER values,
    [GET /messages] answers every message between the two users, and only
    those, in ascending [created_at] order. *)
Theorem get_messages_sorted_complete :
  forall (d : db) (a b : jsval) (x y : Z),
    db_up d = true ->
    int4_param (to_number a) = inr x -> int4_param (to_number b) = inr y ->
    Sorted created_le (get_messages d a b)
    /\ Permutation (get_messages d a b) (filter (in_conversation x y) (messages d)).
Proof.
  intros d a b x y Hup Ha Hb.
  unfold get_messages, select_conversation, select_conversation_with.
  rewrite Hup, Ha, Hb. simpl. split.
  - apply order_by_fold_sorted. constructor.
  - unfold order_by_created_at. rewrite order_by_fold_perm, app_nil_r. reflexivity.
Qed.

Definition db_history : db :=
  Db true [1; 2; 3]
     [MsgRow 1 1 2 (Some "a") 50; MsgRow 2 3 1 (Some "b") 40; MsgRow 3 2 1 (Some "c") 30]
     [] 4 1 100.

Lemma get_messages_sorted_complete_witness :
  Sorted created_le (get_messages db_history (JStr "1") (JStr "2"))
  /\ Permutation (get_messages db_history (JStr "1") (JStr "2"))
       [MsgRow 1 1 2 (Some "a") 50; MsgRow 3 2 1 (Some "c") 30].
Proof.
  exact (get_messages_sorted_complete db_history (JStr "1") (JStr "2") 1 2
           eq_refl eq_refl eq_refl).
Defined.

(** A message whose INSERT succeeds, at a time later than every stored
    message, is the last entry of the history of its sender and receiver. *)
Theorem sent_message_is_last_in_history :
  forall (socket_id : sid) (data : payload) (st : state),
    (forall r, In r (messages (store st)) -> created_at r < now (store st)) ->
    (exists d', insert_message (store st) (to_number (fromUserId data))
                  (to_number (toUserId data)) (pg_param (text data)) = inr d') ->
    exists r rest,
      get_messages (store (fst (on_send_message socket_id data st)))
        (fromUserId data) (toUserId data) = rest ++ [r]
      /\ NInt (sender_id r) = to_number (fromUserId data)
      /\ NInt (receiver_id r) = to_number (toUserId data)
      /\ m_text r = pg_param (text data)
      /\ created_at r = now (store st).
Proof.
  intros socket_id data st Hnow [d' Hi].
  assert (Hst : store (fst (on_send_message socket_id data st)) = d').
  { unfold on_send_message. rewrite Hi.
    destruct (get_prop (to_number (toUserId data)) (onlineUsers st)) as [t|];
      [destruct (negb (String.eqb t ""))|]; reflexivity. }
  rewrite Hst. clear Hst.
  revert Hi. unfold insert_message.
  destruct (db_up (store st)) eqn:Hup; simpl; [|discriminate].
  destruct (int4_param (to_number (fromUserId data))) as [|x] eqn:Hx; [discriminate|].
  destruct (int4_param (to_number (toUserId data))) as [|y] eqn:Hy; [discriminate|].
  destruct (text_param_ok (pg_param (text data))); simpl; [|discriminate].
  destruct (user_exists (store st) x && user_exists (store st) y); [|discriminate].
  intros Hi. injection Hi as <-.
  set (r := MsgRow (messages_id_seq (store st)) x y (pg_param (text data)) (now (store st))).
  exists r, (order_by_created_at (filter (in_conversation x y) (messages (store st)))).
  assert (Hxn : to_number (fromUserId data) = NInt x).
  { destruct (to_number (fromUserId data)) as [z|]; [|discriminate].
    apply int4_param_value in Hx. congruence. }
  assert (Hyn : to_number (toUserId data) = NInt y).
  { destruct (to_number (toUserId data)) as [z|]; [|discriminate].
    apply int4_param_value in Hy. congruence. }
  repeat split; [| simpl; congruence | simpl; congruence].
  unfold get_messages, select_conversation, select_conversation_with. simpl.
  rewrite Hx, Hy. simpl.
  rewrite filter_app. simpl.
  assert (Hc : in_conversation x y r = true)
    by (unfold in_conversation; simpl; rewrite !Z.eqb_refl; reflexivity).
  rewrite Hc. apply order_by_created_at_snoc.
  intros r' Hr'. apply filter_In in Hr'. destruct Hr' as [Hr' _].
  specialize (Hnow r' Hr'). simpl. lia.
Qed.

Lemma sent_message_is_last_in_history_witness :
  exists r rest,
    get_messages (store (fst (on_send_message "s1"
                                (Payload (JStr "2") (JStr "1") (JStr "d"))
                                (State [] db_history))))
      (JStr "1") (JStr "2") = rest ++ [r]
    /\ NInt (sender_id r) = NInt 1 /\ NInt (receiver_id r) = NInt 2
    /\ m_text r = Some "d" /\ created_at r = 100.
Proof.
  apply (sent_message_is_last_in_history "s1" (Payload (JStr "2") (JStr "1") (JStr "d"))
           (State [] db_history)).
  - intros r Hr. simpl in Hr.
    destruct Hr as [<-|[<-|[<-|[]]]]; simpl; lia.
  - eexists. reflexivity.
Defined.

(** [send_message] never touches [onlineUsers], [users] or [friends]; the
    [messages] table is unchanged or gains exactly one row at its end. *)
Theorem send_message_effect :
  forall (socket_id : sid) (data : payload) (st : state),
    let st' := fst (on_send_message socket_id data st) in
    onlineUsers st' = onlineUsers st
    /\ users (store st') = users (store st)
    /\ friends (store st') = friends (store st)
    /\ (messages (store st') = messages (store st)
        \/ exists r, messages (store st') = messages (store st) ++ [r]).
Proof.
  intros socket_id data st st'. subst st'. unfold on_send_message.
  destruct (insert_message (store st) (to_number (fromUserId data))
              (to_number (toUserId data)) (pg_param (text data))) as [e|d'] eqn:Hi.
  - repeat split; left; reflexivity.
  - assert (H : users d' = users (store st) /\ friends d' = friends (store st)
                /\ exists r, messages d' = messages (store st) ++ [r]).
    { revert Hi. unfold insert_message.
      destruct (db_up (store st)); simpl; [|discriminate].
      destruct (int4_param (to_number (fromUserId data))); [discriminate|].
      destruct (int4_param (to_number (toUserId data))); [discriminate|].
      destruct (text_param_ok (pg_param (text data))); simpl; [|discriminate].
      destruct (_ && _); [|discriminate].
      intros Hi. injection Hi as <-. simpl. repeat split. eexists; reflexivity. }
    destruct H as [Hu [Hf Hm]].
    destruct (get_prop (to_number (toUserId data)) (onlineUsers st)) as [t|];
      [destruct (negb (String.eqb t ""))|];
      simpl; (repeat split; [assumption | assumption | right; exact Hm]).
Qed.

(* ------------------------------------------------------------------ *)
(** ** Friend requests *)

Lemma accept_request_ok d rid d' :
  accept_request d rid = inr d' ->
  exists id, db_up d = true /\ int4_param rid = inr id /\
    d' = Db (db_up d) (users d) (messages d)
           (map (fun f => if f_id f =? id
                          then FriendRow (f_id f) (user_id f) (friend_id f) "accepted"
                          else f) (friends d))
           (messages_id_seq d) (friends_id_seq d) (now d).
Proof.
  unfold accept_request. destruct (db_up d) eqn:Hup; simpl; [|discriminate].
  destruct (int4_param rid) as [e|id]; [discriminate|].
  intros H. injection H as <-. exists id. repeat split; reflexivity.
Qed.

(** [POST /friends/accept] on an id no request has answers success and
    changes nothing. *)
Theorem accept_unknown_request_noop :
  forall (d : db) (v : jsval) (id : Z),
    db_up d = true -> int4_param (to_number v) = inr id ->
    (forall f, In f (friends d) -> f_id f <> id) ->
    post_friends_accept d v = (d, AcceptOk).
Proof.
  intros d v id Hup Hid Hn. unfold post_friends_accept, accept_request.
  rewrite Hup, Hid. simpl.
  rewrite (map_ext_in _ (fun f => f)).
  - rewrite map_id. destruct d; simpl in *; subst; reflexivity.
  - intros f Hf. destruct (f_id f =? id) eqn:E; [|reflexivity].
    apply Z.eqb_eq in E. exfalso. exact (Hn f Hf E).
Qed.

Lemma accept_unknown_request_noop_witness :
  post_friends_accept db_mutual (JStr "9") = (db_mutual, AcceptOk).
Proof.
  apply (accept_unknown_request_noop db_mutual (JStr "9") 9);
    [reflexivity | reflexivity |].
  intros f Hf. simpl in Hf. destruct Hf as [<-|[<-|[]]]; simpl; lia.
Defined.

(** [POST /friends/accept] never adds, removes or redirects an edge: each
    row keeps its id and its two users, and either stays as it was or
    gets the status 'accepted'; [users] and [messages] are untouched. *)
Theorem accept_keeps_edges :
  forall (d : db) (v : jsval),
    let d' := fst (post_friends_accept d v) in
    users d' = users d /\ messages d' = messages d /\
    Forall2 (fun f f' => f_id f' = f_id f /\ user_id f' = user_id f
                         /\ friend_id f' = friend_id f
                         /\ (f' = f \/ f_status f' = "accepted"))
      (friends d) (friends d').
Proof.
  intros d v d'. subst d'. unfold post_friends_accept.
  destruct (accept_request d (to_number v)) as [e|d'] eqn:Ha; simpl.
  - repeat split; try reflexivity.
    induction (friends d); constructor; [|assumption]. repeat split; auto.
  - apply accept_request_ok in Ha. destruct Ha as [id [_ [_ ->]]]. simpl.
    repeat split; try reflexivity.
    induction (friends d) as [|f fs IH]; simpl; constructor; [|exact IH].
    destruct (f_id f =? id); simpl; repeat split; auto.
Qed.

(** Accepting a request twice is the same as accepting it once. *)
Theorem accept_idempotent :
  forall (d : db) (v : jsval),
    post_friends_accept (fst (post_friends_accept d v)) v = post_friends_accept d v.
Proof.
  intros d v. unfold post_friends_accept.
  destruct (accept_request d (to_number v)) as [e|d'] eqn:Ha; simpl; [rewrite Ha; reflexivity|].
  pose proof Ha as Ha'. apply accept_request_ok in Ha'.
  destruct Ha' as [id [Hup [Hid ->]]].
  unfold accept_request at 1. simpl. rewrite Hup, Hid. simpl.
  do 2 f_equal. rewrite map_map. apply map_ext. intros f.
  destruct (f_id f =? id) eqn:E; simpl; [rewrite E|rewrite E]; reflexivity.
Qed.

(** Once request [id] is accepted it is in nobody's pending list. *)
Theorem accepted_request_not_pending :
  forall (d d' : db) (v w : jsval) (rows : list user_row) (seq : Z) (id : Z),
    post_friends_accept d v = (d', AcceptOk) ->
    int4_param (to_number v) = inr id ->
    forall e, In e (get_friend_requests (PgDb d' rows seq) w) -> snd e <> id.
Proof.
  intros d d' v w rows seq id Hacc Hid e He.
  unfold post_friends_accept in Hacc.
  destruct (accept_request d (to_number v)) as [|d''] eqn:Ha; [discriminate|].
  injection Hacc as <-. apply accept_request_ok in Ha.
  destruct Ha as [id' [Hup [Hid' ->]]]. rewrite Hid in Hid'. injection Hid' as <-.
  unfold get_friend_requests in He. simpl in He. rewrite Hup in He. simpl in He.
  destruct (int4_param (to_number w)) as [|uid]; [contradiction|].
  apply in_flat_map in He. destruct He as [f' [Hf' He]].
  apply in_map_iff in Hf'. destruct Hf' as [f [<- _]].
  destruct (f_id f =? id) eqn:E; simpl in He.
  - rewrite andb_false_r in He. contradiction.
  - destruct (_ && _); [|contradiction].
    apply in_map_iff in He. destruct He as [u [<- _]]. simpl.
    intros Heq. rewrite Heq, Z.eqb_refl in E. discriminate.
Qed.

Lemma accepted_request_not_pending_witness :
  ~ In (1, Some "Anna", None, 1)
      (get_friend_requests (PgDb (fst (post_friends_accept db_mutual (JStr "1")))
                              (user_rows pg0) 4) (JStr "2")).
Proof.
  intros H.
  exact (accepted_request_not_pending db_mutual _ (JStr "1") (JStr "2") (user_rows pg0) 4 1
           eq_refl eq_refl _ H eq_refl).
Defined.

Lemma insert_friend_ok d f t d' :
  insert_friend d f t = inr d' ->
  exists a b, db_up d = true /\ int4_param f = inr a /\ int4_param t = inr b
    /\ friends d' = friends d ++ [FriendRow (friends_id_seq d) a b "pending"]
    /\ edge_exists d a b = false.
Proof.
  unfold insert_friend. destruct (db_up d) eqn:Hup; simpl; [|discriminate].
  destruct (int4_param f) as [|a]; [discriminate|].
  destruct (int4_param t) as [|b]; [discriminate|].
  destruct (existsb _ _) eqn:He; [discriminate|].
  destruct (_ && _); [|discriminate].
  intros H. injection H as <-. exists a, b. repeat split; assumption.
Qed.

(** After a successful [POST /friends/request] from user [u], the target's
    [GET /friends/requests] lists [u] (its id, name and avatar) with the
    new request's id. *)
Theorem friend_request_listed_for_target :
  forall (s : pgdb) (fa fb : jsval) (d' : db) (u : user_row),
    post_friends_request (base s) fa fb = (d', FriendRequestSent) ->
    In u (user_rows s) -> to_number fa = NInt (u_id u) ->
    In (u_id u, u_name u, u_avatar u, friends_id_seq (base s))
      (get_friend_requests (PgDb d' (user_rows s) (users_id_seq s)) fb).
Proof.
  intros s fa fb d' u Hreq Hu Hfa. unfold post_friends_request in Hreq.
  destruct (insert_friend (base s) (to_number fa) (to_number fb)) as [|d''] eqn:Hi;
    [discriminate|].
  injection Hreq as <-.
  assert (Hup' : db_up d'' = db_up (base s)).
  { revert Hi. unfold insert_friend. destruct (db_up (base s)); simpl; [|discriminate].
    destruct (int4_param _); [discriminate|]. destruct (int4_param _); [discriminate|].
    destruct (existsb _ _); [discriminate|]. destruct (_ && _); [|discriminate].
    intros H; injection H as <-; reflexivity. }
  apply insert_friend_ok in Hi. destruct Hi as [a [b [Hup [Ha [Hb [Hf _]]]]]].
  rewrite Hfa in Ha. apply int4_param_value in Ha. subst a.
  unfold get_friend_requests. simpl. rewrite Hup', Hup, Hb. simpl.
  apply in_flat_map. exists (FriendRow (friends_id_seq (base s)) (u_id u) b "pending").
  rewrite Hf. split; [apply in_or_app; right; left; reflexivity|].
  simpl. rewrite Z.eqb_refl. simpl.
  apply in_map_iff. exists u. split; [reflexivity|].
  apply filter_In. split; [exact Hu | apply Z.eqb_refl].
Qed.

Lemma friend_request_listed_for_target_witness :
  In (1, Some "Anna", None, 1)
    (get_friend_requests (PgDb (fst (post_friends_request db0 (JStr "1") (JStr "2")))
                            (user_rows pg0) 4) (JStr "2")).
Proof.
  apply (friend_request_listed_for_target pg0 (JStr "1") (JStr "2")
           (fst (post_friends_request db0 (JStr "1") (JStr "2")))
           (UserRow 1 (Some "111") (Some "ann@x") (BHash "pw1" 7) (Some "Anna") None));
    [reflexivity | left; reflexivity | reflexivity].
Defined.

Lemma accept_edge_keys d v :
  map (fun f => (user_id f, friend_id f)) (friends (fst (post_friends_accept d v)))
  = map (fun f => (user_id f, friend_id f)) (friends d).
Proof.
  unfold post_friends_accept.
  destruct (accept_request d (to_number v)) as [|d'] eqn:Ha; [reflexivity|].
  apply accept_request_ok in Ha. destruct Ha as [id [_ [_ ->]]]. simpl.
  rewrite map_map. apply map_ext. intros f. destruct (f_id f =? id); reflexivity.
Qed.

(** [UNIQUE(user_id, friend_id)] as a property of the table. *)
Definition edges_unique (d : db) : Prop :=
  NoDup (map (fun f => (user_id f, friend_id f)) (friends d)).

Lemma edge_exists_false_notin d a b :
  edge_exists d a b = false ->
  ~ In (a, b) (map (fun f => (user_id f, friend_id f)) (friends d)).
Proof.
  unfold edge_exists. intros He Hin. apply in_map_iff in Hin.
  destruct Hin as [f [Hf Hin]]. injection Hf as Ha Hb.
  assert (existsb (fun r => (user_id r =? a) && (friend_id r =? b)) (friends d) = true)
    by (apply existsb_exists; exists f; rewrite Ha, Hb, !Z.eqb_refl; split; [exact Hin|reflexivity]).
  congruence.
Qed.

(** The friend routes keep the pairs [(user_id, friend_id)] of the
    [friends] table distinct. *)
Theorem friend_routes_keep_edges_unique :
  forall (d : db) (a b v : jsval),
    edges_unique d ->
    edges_unique (fst (post_friends_request d a b))
    /\ edges_unique (fst (post_friends_accept d v)).
Proof.
  intros d a b v Hu. split.
  - unfold post_friends_request.
    destruct (insert_friend d (to_number a) (to_number b)) as [|d'] eqn:Hi; [exact Hu|].
    apply insert_friend_ok in Hi. destruct Hi as [x [y [_ [_ [_ [Hf He]]]]]].
    unfold edges_unique. simpl. rewrite Hf, map_app. simpl.
    apply (Permutation_NoDup (Permutation_cons_append _ _)).
    constructor; [apply edge_exists_false_notin, He | exact Hu].
  - unfold edges_unique. rewrite accept_edge_keys. exact Hu.
Qed.

Lemma friend_routes_keep_edges_unique_witness :
  edges_unique (fst (post_friends_request db_mutual (JStr "1") (JStr "3")))
  /\ edges_unique (fst (post_friends_accept db_mutual (JStr "2"))).
Proof.
  apply friend_routes_keep_edges_unique.
  unfold edges_unique. simpl. repeat constructor; simpl; intuition discriminate.
Defined.

(* ------------------------------------------------------------------ *)
(** ** Accounts and search *)

Lemma filter_all_false {A} (f : A -> bool) l :
  (forall x, In x l -> f x = false) -> filter f l = [].
Proof.
  induction l as [|x l IH]; simpl; intros H; [reflexivity|].
  rewrite H by (left; reflexivity). apply IH. intros y Hy. apply H. right. exact Hy.
Qed.

Lemma text_taken_false_neq col rows v :
  text_taken col rows (Some v) = false -> forall u, In u rows -> col u <> Some v.
Proof.
  unfold text_taken. intros H u Hu Hc.
  assert (existsb (fun u => sql_text_eq (col u) (Some v)) rows = true).
  { apply existsb_exists. exists u. split; [exact Hu|]. rewrite Hc. simpl. apply String.eqb_refl. }
  congruence.
Qed.



(** An account registered with email [e] and password [pw] logs in with
    [e] and [pw], answering its id, stored name and avatar, provided no
    earlier account has [e] as its phone ([rows[0]] would be that one). *)
Theorem register_then_login :
  forall (s s' : pgdb) (phone name : jsval) (e pw : string) (file : option string)
         (salt id : Z) (nm : jsval) (av : option string),
    post_register s phone (JStr e) (JStr pw) name file salt = (s', Registered id nm av) ->
    (forall u, In u (user_rows s) -> u_phone u <> Some e) ->
    post_login s' (JStr e) (JStr pw) = LoggedIn id (pg_param name) av.
Proof.
  intros s s' phone name e pw file salt id nm av Hreg Hph.
  unfold post_register, insert_user in Hreg. simpl in Hreg.
  destruct (db_up (base s)) eqn:Hup; simpl in Hreg; [|discriminate].
  destruct (has_nul e) eqn:Hnul;
    [rewrite ?andb_false_r, ?andb_false_l in Hreg; simpl in Hreg; discriminate|].
  destruct (_ && _ && _ && _); simpl in Hreg; [|discriminate].
  destruct (text_taken u_phone (user_rows s) (pg_param phone)); simpl in Hreg; [discriminate|].
  destruct (text_taken u_email (user_rows s) (Some e)) eqn:Hem; simpl in Hreg; [discriminate|].
  injection Hreg as <- <- <- <-.
  unfold post_login, select_login. simpl. rewrite Hnul. simpl.
  rewrite filter_app.
  rewrite filter_all_false.
  - simpl. rewrite String.eqb_refl. simpl. rewrite String.eqb_refl. reflexivity.
  - intros u Hu. apply orb_false_iff. split.
    + pose proof (text_taken_false_neq u_email (user_rows s) e Hem u Hu) as Hn.
      destruct (u_email u) as [x|]; simpl; [|reflexivity].
      apply String.eqb_neq. congruence.
    + specialize (Hph u Hu).
      destruct (u_phone u) as [x|]; simpl; [|reflexivity].
      apply String.eqb_neq. congruence.
Qed.

Lemma register_then_login_witness :
  post_login (fst (post_register pg0 (JStr "333") (JStr "c@x") (JStr "secret") (JStr "Cy")
                     (Some "1.png") 5))
    (JStr "c@x") (JStr "secret") = LoggedIn 4 (Some "Cy") (Some "/uploads/1.png").
Proof.
  apply (register_then_login pg0 _ (JStr "333") (JStr "Cy") "c@x" "secret" (Some "1.png") 5 4
           (JStr "Cy") (Some "/uploads/1.png")).
  - reflexivity.
  - intros u Hu. simpl in Hu. destruct Hu as [<-|[<-|[<-|[]]]]; simpl; discriminate.
Defined.

(** [POST /login] reads only the first 72 bytes of the password: two
    passwords that agree on them get the same answer. *)
Theorem login_password_72_bytes :
  forall (s : pgdb) (login : jsval) (p1 p2 : string),
    substring 0 72 p1 = substring 0 72 p2 ->
    post_login s login (JStr p1) = post_login s login (JStr p2).
Proof.
  intros s login p1 p2 H. unfold post_login, bcrypt_compare, bcrypt_key. rewrite H.
  reflexivity.
Qed.

Fixpoint repeat_char (n : nat) (c : ascii) : string :=
  match n with O => EmptyString | S n' => String c (repeat_char n' c) end.

Lemma login_password_72_bytes_witness :
  post_login (PgDb db0 [UserRow 1 (Some "111") None
                          (BHash (bcrypt_key (repeat_char 80 "a")) 7) None None] 2)
    (JStr "111") (JStr (repeat_char 72 "a" ++ "XYZ")%string)
  = post_login (PgDb db0 [UserRow 1 (Some "111") None
                            (BHash (bcrypt_key (repeat_char 80 "a")) 7) None None] 2)
      (JStr "111") (JStr (repeat_char 80 "a")).
Proof. apply login_password_72_bytes. vm_compute. reflexivity. Defined.

(** A [POST /login] without a [login] field is answered 400 whatever the
    password: the NULL parameter equals no email and no phone. *)
Theorem login_missing_login_invalid :
  forall (s : pgdb) (password : jsval),
    db_up (base s) = true -> post_login s JUndef password = LoginInvalid.
Proof.
  intros s password Hup. unfold post_login, select_login. rewrite Hup. simpl.
  rewrite filter_all_false; [reflexivity|].
  intros u _. destruct (u_email u), (u_phone u); reflexivity.
Qed.

Lemma login_missing_login_invalid_witness :
  post_login pg0 JUndef (JStr "pw1") = LoginInvalid.
Proof. apply login_missing_login_invalid. reflexivity. Defined.

(** The non-NULL values of a TEXT column, in table order. *)
Definition non_null (col : user_row -> option string) (rows : list user_row) : list string :=
  flat_map (fun u => match col u with Some v => [v] | None => [] end) rows.

(** What the [users] table satisfies when all its rows came from
    [/register]: non-NULL phones pairwise distinct, and so emails; ids
    pairwise distinct, below the sequence, and the ids the foreign keys
    see; no TEXT value holding a NUL byte. *)
Definition accounts_ok (s : pgdb) : Prop :=
  NoDup (non_null u_phone (user_rows s))
  /\ NoDup (non_null u_email (user_rows s))
  /\ NoDup (map u_id (user_rows s))
  /\ Forall (fun u => u_id u < users_id_seq s) (user_rows s)
  /\ map u_id (user_rows s) = users (base s)
  /\ Forall (fun u => text_param_ok (u_phone u) && text_param_ok (u_email u)
                      && text_param_ok (u_name u) && text_param_ok (u_avatar u) = true)
           (user_rows s).

Lemma NoDup_snoc {A} (l : list A) x : NoDup l -> ~ In x l -> NoDup (l ++ [x]).
Proof.
  intros Hl Hx. apply (Permutation_NoDup (l := x :: l)).
  - apply Permutation_cons_append.
  - constructor; assumption.
Qed.

Lemma non_null_snoc col rows u :
  non_null col (rows ++ [u])
  = non_null col rows ++ match col u with Some v => [v] | None => [] end.
Proof. unfold non_null. rewrite flat_map_app. simpl. rewrite app_nil_r. reflexivity. Qed.

Lemma in_non_null col rows v : In v (non_null col rows) -> exists u, In u rows /\ col u = Some v.
Proof.
  unfold non_null. intros H. apply in_flat_map in H. destruct H as [u [Hu Hv]].
  exists u. split; [exact Hu|]. destruct (col u) as [w|]; [|destruct Hv].
  destruct Hv as [<-|[]]. reflexivity.
Qed.

Lemma non_null_add col rows p :
  NoDup (non_null col rows) -> text_taken col rows p = false ->
  NoDup (non_null col rows ++ match p with Some v => [v] | None => [] end).
Proof.
  intros Hnd Ht. destruct p as [v|]; [|rewrite app_nil_r; exact Hnd].
  apply NoDup_snoc; [exact Hnd|]. intros Hin.
  destruct (in_non_null col rows v Hin) as [u [Hu Hc]].
  exact (text_taken_false_neq col rows v Ht u Hu Hc).
Qed.

Lemma insert_user_ok s ph em h nm av s' id :
  insert_user s ph em h nm av = inr (s', id) ->
  text_param_ok ph && text_param_ok em && text_param_ok nm && text_param_ok av = true
  /\ text_taken u_phone (user_rows s) ph = false
  /\ text_taken u_email (user_rows s) em = false
  /\ id = users_id_seq s
  /\ users (base s') = users (base s) ++ [id]
  /\ user_rows s' = user_rows s ++ [UserRow id ph em h nm av]
  /\ users_id_seq s' = id + 1.
Proof.
  unfold insert_user. destruct (db_up (base s)); simpl; [|discriminate].
  destruct (_ && _ && _ && _) eqn:Hok; simpl; [|discriminate].
  destruct (text_taken u_phone (user_rows s) ph); simpl; [discriminate|].
  destruct (text_taken u_email (user_rows s) em); simpl; [discriminate|].
  intros H. injection H as <- <-. repeat split; reflexivity.
Qed.

(** [POST /register] keeps the [users] table as [/register] builds it:
    phones and emails stay unique, a new account gets a fresh id, known
    to the foreign keys, and no stored text holds a NUL byte. *)
Theorem register_keeps_accounts_ok :
  forall (s : pgdb) (phone email password name : jsval) (file : option string) (salt : Z),
    accounts_ok s ->
    accounts_ok (fst (post_register s phone email password name file salt)).
Proof.
  intros s phone email password name file salt Hs. unfold post_register.
  destruct (bcrypt_hash password salt) as [h|]; [|exact Hs].
  match goal with
  | |- context [insert_user s ?ph ?em h ?nm ?av] =>
      destruct (insert_user s ph em h nm av) as [e|[s' id]] eqn:Hi; [exact Hs|]
  end.
  apply insert_user_ok in Hi.
  destruct Hi as [Hnul [Hph [Hem [-> [Hus [Hrows Hseq]]]]]].
  destruct Hs as [Hp [He [Hid [Hlt [Hmap Hno]]]]]. simpl.
  unfold accounts_ok. rewrite Hrows, Hus, Hseq, !non_null_snoc. simpl.
  repeat split.
  - apply non_null_add; assumption.
  - apply non_null_add; assumption.
  - rewrite map_app. simpl. apply NoDup_snoc; [exact Hid|]. intros Hin.
    apply in_map_iff in Hin. destruct Hin as [u [Heq Hu]].
    rewrite Forall_forall in Hlt. specialize (Hlt u Hu). lia.
  - apply Forall_app. split; [|constructor; [simpl; lia | constructor]].
    eapply Forall_impl; [|exact Hlt]. intros u Hu. simpl in Hu. lia.
  - rewrite map_app, Hmap. reflexivity.
  - apply Forall_app. split; [exact Hno | constructor; [exact Hnul | constructor]].
Qed.

Lemma register_keeps_accounts_ok_witness :
  accounts_ok (fst (post_register pg0 (JStr "333") (JStr "c@x") (JStr "secret") (JStr "Cy")
                      (Some "1.png") 5)).
Proof.
  apply register_keeps_accounts_ok.
  unfold accounts_ok; simpl.
  repeat split; repeat constructor; simpl; try lia; intuition discriminate.
Defined.

Lemma in_firstn {A} n (l : list A) x : In x (firstn n l) -> In x l.
Proof.
  revert l. induction n as [|n IH]; intros [|y l]; simpl; try tauto.
  intros [H|H]; [left; exact H | right; exact (IH l H)].
Qed.

Lemma has_nul_append a b : has_nul (a ++ b) = has_nul a || has_nul b.
Proof. induction a as [|c a IH]; simpl; [reflexivity | rewrite IH, orb_assoc; reflexivity]. Qed.

Lemma has_nul_lower s : has_nul (lower s) = has_nul s.
Proof.
  induction s as [|c s IH]; simpl; [reflexivity|]. rewrite IH. f_equal.
  destruct c as [[] [] [] [] [] [] [] []]; reflexivity.
Qed.

(** A NUL byte of a LIKE pattern is matched by a NUL byte of the text:
    it is neither [%] nor [_] nor the escape. *)
Lemma like_match_nul n :
  forall p s, (String.length p <= n)%nat ->
    like_match p s = true -> has_nul p = true -> has_nul s = true.
Proof.
  induction n as [|n IHn]; intros [|c p] s Hl H Hp; simpl in Hl;
    try (simpl in Hp; discriminate); try lia.
  assert (Hp' : Ascii.eqb c "000"%char = true \/ has_nul p = true)
    by (simpl in Hp; apply orb_true_iff in Hp; exact Hp).
  simpl in H. destruct (Ascii.eqb c "%"%char) eqn:E1.
  { apply Ascii.eqb_eq in E1; subst c.
    destruct Hp' as [Hc|Hc]; [cbv in Hc; discriminate|].
    induction s as [|c' s IHs]; apply orb_true_iff in H; destruct H as [H|H].
    - exact (IHn p _ ltac:(lia) H Hc).
    - discriminate.
    - exact (IHn p _ ltac:(lia) H Hc).
    - simpl. rewrite (IHs H). apply orb_true_r. }
  destruct (Ascii.eqb c "_"%char) eqn:E2.
  { apply Ascii.eqb_eq in E2; subst c.
    destruct Hp' as [Hc|Hc]; [cbv in Hc; discriminate|].
    destruct s as [|c' s']; [discriminate|].
    simpl. rewrite (IHn p s' ltac:(lia) H Hc). apply orb_true_r. }
  destruct (Ascii.eqb c "\"%char) eqn:E3.
  { apply Ascii.eqb_eq in E3; subst c.
    destruct Hp' as [Hc|Hc]; [cbv in Hc; discriminate|].
    destruct p as [|e p'']; [discriminate|]. destruct s as [|c' s']; [discriminate|].
    apply andb_true_iff in H. destruct H as [He H].
    apply Ascii.eqb_eq in He; subst e. simpl in Hc, Hl |- *.
    apply orb_true_iff in Hc. destruct Hc as [Hc|Hc]; [rewrite Hc; reflexivity|].
    rewrite (IHn p'' s' ltac:(lia) H Hc). apply orb_true_r. }
  destruct s as [|c' s']; [discriminate|].
  apply andb_true_iff in H. destruct H as [Hc' H].
  apply Ascii.eqb_eq in Hc'; subst c'. simpl.
  destruct Hp' as [Hc|Hc]; [rewrite Hc; reflexivity|].
  rewrite (IHn p s' ltac:(lia) H Hc). apply orb_true_r.
Qed.

(** On every [users] table [/register] builds, a search text holding a
    NUL byte finds nobody. (Postgres rejects such a pattern outright, and
    the route answers [[]] as well.) *)
Theorem search_nul_finds_nobody :
  forall (s : pgdb) (q : string),
    accounts_ok s -> has_nul q = true -> get_search s (JStr q) = [].
Proof.
  intros s q Hs Hq. unfold get_search.
  destruct (db_up (base s)); [|reflexivity]. cbn [negb].
  rewrite filter_all_false; [reflexivity|].
  intros u Hu. destruct Hs as [_ [_ [_ [_ [_ Hno]]]]].
  rewrite Forall_forall in Hno. specialize (Hno u Hu).
  unfold ilike. destruct (u_name u) as [n|] eqn:Hn; [|reflexivity].
  destruct (like_match _ (lower n)) eqn:Hm; [|reflexivity]. exfalso.
  apply (like_match_nul _ _ _ (le_n _)) in Hm.
  - rewrite has_nul_lower in Hm. simpl in Hno.
    rewrite Hm in Hno. rewrite andb_false_r, andb_false_l in Hno. discriminate.
  - rewrite has_nul_lower. simpl js_to_string. rewrite !has_nul_append, Hq.
    rewrite orb_true_r. reflexivity.
Qed.

Lemma search_nul_finds_nobody_witness :
  get_search (fst (post_register pg0 (JStr "333") (JStr "c@x") (JStr "secret") (JStr "Cy")
                     (Some "1.png") 5)) (JStr text_with_nul) = [].
Proof.
  apply search_nul_finds_nobody; [|reflexivity].
  unfold accounts_ok; simpl.
  repeat split; repeat constructor; simpl; try lia; intuition discriminate.
Defined.

(** [GET /search] answers at most 10 users, each a row of [users] whose
    name matches [%q%] (ILIKE); when at most 10 rows match, every matching
    user is in the answer. *)
Theorem search_bounded_sound_complete :
  forall (s : pgdb) (q : jsval),
    let pattern := ("%" ++ js_to_string q ++ "%")%string in
    (List.length (get_search s q) <= 10)%nat
    /\ (forall e, In e (get_search s q) ->
        exists u, In u (user_rows s) /\ e = (u_id u, u_name u, u_avatar u)
                  /\ ilike (u_name u) pattern = true)
    /\ (db_up (base s) = true ->
        (List.length (filter (fun u => ilike (u_name u) pattern) (user_rows s)) <= 10)%nat ->
        forall u, In u (user_rows s) -> ilike (u_name u) pattern = true ->
        In (u_id u, u_name u, u_avatar u) (get_search s q)).
Proof.
  intros s q pattern. unfold get_search. fold pattern.
  destruct (db_up (base s)) eqn:Hup; cbn [negb].
  - repeat split.
    + rewrite length_map. apply firstn_le_length.
    + intros e He. apply in_map_iff in He. destruct He as [u [<- Hu]].
      apply in_firstn in Hu.
      apply filter_In in Hu. exists u. repeat split; apply Hu.
    + intros _ Hlen u Hu Hm. rewrite firstn_all2 by exact Hlen.
      apply (in_map (fun u => (u_id u, u_name u, u_avatar u))).
      apply filter_In. split; assumption.
  - repeat split; [simpl; lia | intros e [] | discriminate].
Qed.

Lemma search_bounded_sound_complete_witness :
  In (2, Some "Boris", Some "/uploads/b.png") (get_search pg0 (JStr "bor")).
Proof.
  destruct (search_bounded_sound_complete pg0 (JStr "bor")) as [_ [_ H]].
  apply (H eq_refl ltac:(vm_compute; lia)
           (UserRow 2 (Some "222") None (BHash "pw2" 8) (Some "Boris") (Some "/uploads/b.png")));
    [right; left; reflexivity | reflexivity].
Defined.
